(** * email-labeler: the artifact contract and class alignment of the two heads

    A shallow embedding of the four scripts of the repository

      - [train_important.py], [train_label_router.py]  (training pipelines)
      - [infer_important.py], [infer_label_router.py]  (inference pipelines)

    Each script is one [main] function that reads its arguments, calls the
    embedding provider and the classifier (external collaborators), reads or
    writes one pickled artifact and prints one JSON line.  The scripts are
    embedded as computations in a small process monad over a [world] (file
    system, stdout, stderr); the external collaborators are parameters of the
    development.

    Conventions of the embedding:
      - a training file is a list of rows whose fields may be absent;
      - a float is the rational number it denotes, so that [p >= 0.5] and
        [round(p, 4)] are exact;
      - [stdout] records the values handed to [json.dumps], not their text;
      - an uncaught exception ends the run with [Raise], [sys.exit(n)] and
        the normal end of [main] with [Exit];
      - the world records what the scripts themselves print and pickle:
        the interpreter's traceback, whatever the collaborators or
        [pickle.load] do to the disk or the streams, and a failure while
        the artifact is written are outside it. *)

From Stdlib Require Import ZArith QArith Qabs Lia.
From stdpp Require Import base decidable option list sorting strings gmap pretty.

Close Scope Q_scope.
Local Open Scope string_scope.
Set Warnings "-register-all".

(** ** Python values that reach the output *)

(** What [json.dumps] is given: the scripts print dicts (insertion ordered)
    of booleans, integers, floats, strings and lists of strings.  A float is
    represented by the rational number it denotes. *)
Inductive json : Type :=
  | JBool (b : bool)
  | JInt (n : Z)
  | JFloat (q : Q)
  | JStr (s : string)
  | JArr (items : list json)
  | JObj (fields : list (string * json)).

(** Python's [str(b)] for a boolean, as an f-string interpolates it. *)
Definition str_of_bool (b : bool) : string :=
  if b then "True" else "False".

(** [x or default] on an optional string: [None] and [""] are falsy. *)
Definition or_str (x : option string) (default : string) : string :=
  match x with
  | Some s => if decide (s = "") then default else s
  | None => default
  end.

(** [bool(x)] on an optional boolean: [None] is falsy. *)
Definition py_bool (x : option bool) : bool :=
  match x with
  | Some b => b
  | None => false
  end.

(** A Python dict keeps insertion order; assigning to a key that is already
    present replaces its value in place. *)
Fixpoint dict_setitem {V : Type} (d : list (string * V)) (k : string) (v : V)
  : list (string * V) :=
  match d with
  | [] => [(k, v)]
  | (k', v') :: d' =>
      if decide (k' = k) then (k, v) :: d' else (k', v') :: dict_setitem d' k v
  end.

(** [l.index(x)]: position of the first occurrence. *)
Fixpoint list_index {A : Type} `{EqDecision A} (x : A) (l : list A) : option nat :=
  match l with
  | [] => None
  | y :: l' => if decide (y = x) then Some 0%nat else S <$> list_index x l'
  end.

(** ** Training samples *)

(** One element of the training file: a JSON object whose fields may be
    absent (or null), read with [row.get]. *)
Record row : Type := Row {
  text : option string;
  important : option bool;
  target_label : option string;
}.

(** A class label as the classifier sees it: the importance head is fitted
    on booleans, the router head on strings. *)
Inductive label : Type :=
  | LBool (b : bool)
  | LStr (s : string).

Global Instance label_eq_dec : EqDecision label.
Proof. solve_decision. Defined.

(** ** Exceptions and the process monad *)

Inductive exn : Type :=
  | FileNotFoundError (path : string)
  | KeyError (key : string)
  | IndexError
  | AttributeError (attr : string)
  | TypeError
  | ValueError
  | UnpicklingError
  | ExternalError (what : string).

(** Why a script stopped before the end of [main]. *)
Inductive stop : Type :=
  | Exit (code : Z)
  | Raise (e : exn).


(** ** Lexicographic order on strings ([sorted] on Python strings) *)

Definition str_le (s1 s2 : string) : Prop := String.leb s1 s2 = true.

Global Instance str_le_dec : RelDecision str_le.
Proof. intros s1 s2. unfold str_le. apply _. Defined.

(** [set(xs)]: the distinct members of [xs]. *)
Definition py_set {A : Type} `{Countable A} (xs : list A) : gset A :=
  list_to_set xs.

(** [sorted(s)] on a set of strings: the set's members, whatever order the
    set iterates them in, arranged in increasing lexicographic order. *)
Definition sorted (s : gset string) : list string :=
  merge_sort str_le (elements s).

(** ** Floats: threshold and rounding *)

(** [round(p, 4)]: the multiple of 1/10000 nearest to [p], a tie going to
    the even multiple; the result is printed with at most four decimals. *)
Definition round_half_even (n : Z) (d : positive) : Z :=
  let fl := (n / Z.pos d)%Z in
  let r := (n mod Z.pos d)%Z in
  match (2 * r ?= Z.pos d)%Z with
  | Lt => fl
  | Gt => (fl + 1)%Z
  | Eq => if Z.even fl then fl else (fl + 1)%Z
  end.

Definition round4 (p : Q) : Q :=
  Qred (round_half_even (Qnum p * 10000) (Qden p) # 10000).

(** [p >= 0.5] *)
Definition ge_half (p : Q) : bool := Qle_bool (1 # 2) p.

(** ** Pickled values *)

(** The values stored in an artifact dict: the embedder's name, the fitted
    classifier and, for the router, the list of labels. *)
Inductive pyval (clf : Type) : Type :=
  | PStr (s : string)
  | PClf (c : clf)
  | PStrList (l : list string).
Arguments PStr {clf} s.
Arguments PClf {clf} c.
Arguments PStrList {clf} l.

(** The default embedding model of all four scripts. *)
Definition default_model : string := "all-MiniLM-L6-v2".

(** ** A small concrete instance of the collaborators

    Used to run the scripts on concrete inputs: an embedding is the length
    of the text, a classifier is a table of its classes with one
    probability each, and a pickle is the list of the dict's items. *)
Module Demo.

Record table : Type := Table {
  table_classes : list label;
  table_proba : list Q;
}.

Definition embed (name : string) (texts : list string) : exn + list nat :=
  inr (String.length <$> texts).

Definition fit (X : list nat) (y : list label) : exn + table :=
  let classes := remove_dups y in
  inr (Table classes (replicate (length classes) (1 # Pos.of_nat (length classes))%Q)).

Definition predict_proba (c : table) (X : list nat) : exn + list (list Q) :=
  inr ((λ _, table_proba c) <$> X).

Definition classes_ (c : table) : list label := table_classes c.

Definition pickle_dumps (d : gmap string (pyval table))
  : list (string * pyval table) :=
  map_to_list d.

Definition pickle_loads (b : list (string * pyval table))
  : exn + gmap string (pyval table) :=
  inr (list_to_map b).

End Demo.

(** ** What a script is started with *)

(** The read-only surroundings of one invocation: the argument vector
    ([sys.argv], the script's name first), the JSON training files on disk
    (already parsed), the process environment, and the import error of the
    first [try: import ...] block when a dependency is not installed. *)
Record env : Type := Env {
  argv : list string;
  data_files : gmap string (list row);
  environ : gmap string string;
  import_error : option string;
}.

(** ** Concrete invocations *)
Module Sample.

(** Three samples: the last one has neither a flag nor a target label. *)
Definition mixed_samples : list row :=
  [Row (Some "pay the invoice") (Some true) (Some "billing");
   Row (Some "see you at ten") (Some false) (Some "chat");
   Row (Some "reset my password") None None].

(** [train_*.py data.json model.pkl] *)
Definition train_env : env :=
  Env ["train.py"; "data.json"; "model.pkl"] {["data.json" := mixed_samples]} ∅ None.

(** [infer_*.py model.pkl "please review today"], with another embedding
    model in the environment. *)
Definition infer_env : env :=
  Env ["infer.py"; "model.pkl"; "please review today"] ∅
    {["EMBEDDING_MODEL" := "another-model"]} None.

(** What [Demo.fit] learns from [mixed_samples]. *)
Definition importance_table : Demo.table :=
  Demo.Table [LBool true; LBool false] [(1 # 2)%Q; (1 # 2)%Q].

Definition router_table : Demo.table :=
  Demo.Table [LStr "billing"; LStr "chat"; LStr "other"]
    [(1 # 3)%Q; (1 # 3)%Q; (1 # 3)%Q].

(** A fit that does not go through. *)
Definition failing_fit (X : list nat) (y : list label) : exn + Demo.table :=
  inl (ExternalError "fit").

End Sample.

Section Pipelines.

(** *** External collaborators *)

(** Embedding vectors, fitted classifiers and pickled blobs are opaque. *)
Context {vec clf blob : Type}.

(** [SentenceTransformer(name).encode(texts)] *)
Variable embed : string → list string → exn + list vec.
(** [LogisticRegression(max_iter=500).fit(X, y)] *)
Variable fit : list vec → list label → exn + clf.
(** [classifier.predict_proba(X)]: one probability vector per input row *)
Variable predict_proba : clf → list vec → exn + list (list Q).
(** [classifier.classes_] *)
Variable classes_ : clf → list label.
(** [pickle.dumps] and [pickle.loads] on an artifact dict *)
Variable pickle_dumps : gmap string (pyval clf) → blob.
Variable pickle_loads : blob → exn + gmap string (pyval clf).

(** *** The process monad *)

(** What a script can change: the pickle files on disk and its two output
    streams ([stdout] holds the values given to [json.dumps]). *)
Record world : Type := World {
  files : gmap string blob;
  stdout : list json;
  stderr : list string;
}.

Definition proc (A : Type) : Type := world → (stop + A) * world.

Global Instance proc_ret : MRet proc := λ A (a : A) w, (inr a, w).

Global Instance proc_bind : MBind proc := λ A B (k : A → proc B) (m : proc A) w,
  match m w with
  | (inl s, w') => (inl s, w')
  | (inr a, w') => k a w'
  end.

Definition sys_exit {A : Type} (code : Z) : proc A := λ w, (inl (Exit code), w).

Definition raise {A : Type} (e : exn) : proc A := λ w, (inl (Raise e), w).

(** An external call: its exception, if any, is not caught. *)
Definition call {A : Type} (r : exn + A) : proc A :=
  match r with
  | inl e => raise e
  | inr a => mret a
  end.

(** [print(json.dumps(v))] *)
Definition print_json (v : json) : proc unit := λ w,
  (inr (), World (files w) (stdout w ++ [v]) (stderr w)).

(** [print(msg, file=sys.stderr)] *)
Definition print_err (msg : string) : proc unit := λ w,
  (inr (), World (files w) (stdout w) (stderr w ++ [msg])).

(** [l[i]] *)
Definition getitem {A : Type} (l : list A) (i : nat) : proc A :=
  match l !! i with
  | Some a => mret a
  | None => raise IndexError
  end.

(** [with open(path) as f: data = json.load(f)] *)
Definition json_load (e : env) (path : string) : proc (list row) :=
  match data_files e !! path with
  | Some data => mret data
  | None => raise (FileNotFoundError path)
  end.

(** The [try: import ... except ImportError as e:] block; [hint] is what
    the training scripts append to the message. *)
Definition import_deps (e : env) (hint : string) : proc unit :=
  match import_error e with
  | Some msg =>
      print_err ("Import error: " ++ msg ++ hint) ;; sys_exit 2
  | None => mret ()
  end.

(** [with open(path, "wb") as f: pickle.dump(d, f)] *)
Definition pickle_dump (path : string) (d : gmap string (pyval clf)) : proc unit :=
  λ w, (inr (), World (<[path := pickle_dumps d]> (files w)) (stdout w) (stderr w)).

(** [with open(path, "rb") as f: artifact = pickle.load(f)] *)
Definition pickle_load (path : string) : proc (gmap string (pyval clf)) := λ w,
  match files w !! path with
  | Some b => call (pickle_loads b) w
  | None => raise (FileNotFoundError path) w
  end.

(** [artifact[key]] *)
Definition dict_getitem (d : gmap string (pyval clf)) (key : string)
  : proc (pyval clf) :=
  match d !! key with
  | Some v => mret v
  | None => raise (KeyError key)
  end.

(** [artifact.get(key, dflt)] *)
Definition dict_get (d : gmap string (pyval clf)) (key : string)
  (dflt : pyval clf) : pyval clf :=
  default dflt (d !! key).

(** [os.environ.get("EMBEDDING_MODEL", "all-MiniLM-L6-v2")] *)
Definition model_name (e : env) : string :=
  default default_model (environ e !! "EMBEDDING_MODEL").

(** A whole run: [main] returning normally is exit status 0. *)
Definition run (main : proc unit) (w : world) : stop * world :=
  match main w with
  | (inl s, w') => (s, w')
  | (inr _, w') => (Exit 0, w')
  end.

(** *** train_important.py *)

Definition importance_labels (data : list row) : list bool :=
  (λ r, py_bool (important r)) <$> data.

Definition sample_texts (data : list row) : list string :=
  (λ r, or_str (text r) "") <$> data.

(** The dict that [train_important.py] pickles. *)
Definition importance_artifact (name : string) (c : clf)
  : gmap string (pyval clf) :=
  <["embedder_name" := PStr name]> (<["classifier" := PClf c]> ∅).

Definition train_important_main (e : env) : proc unit :=
  if (length (argv e) <? 2)%nat then
    print_err "Usage: train_important.py <data.json> [output.pkl]" ;;
    sys_exit 1
  else
    path ← getitem (argv e) 1 ;
    data ← json_load e path ;
    if (length data =? 0)%nat then
      print_err "No samples" ;; sys_exit 1
    else
      import_deps e ". Install sentence-transformers scikit-learn" ;;
      let texts := sample_texts data in
      let labels := importance_labels data in
      if (size (py_set labels) <? 2)%nat then
        l0 ← getitem labels 0 ;
        print_json (JObj [
          ("samples", JInt (Z.of_nat (length data)));
          ("skipped", JBool true);
          ("reason", JStr ("Need both True and False labels to train, got only "
                           ++ str_of_bool l0))]) ;;
        sys_exit 0
      else
        let name := model_name e in
        X ← call (embed name texts) ;
        c ← call (fit X (LBool <$> labels)) ;
        out_path ← (if (2 <? length (argv e))%nat
                    then getitem (argv e) 2
                    else (mret "./important_model.pkl" : proc string)) ;
        pickle_dump out_path (importance_artifact name c) ;;
        print_json (JObj [
          ("samples", JInt (Z.of_nat (length data)));
          ("path", JStr out_path)]).

(** *** train_label_router.py *)

Definition router_targets (data : list row) : list string :=
  (λ r, or_str (target_label r) "other") <$> data.

(** [label_list = sorted(set(targets))] *)
Definition label_catalog (data : list row) : list string :=
  sorted (py_set (router_targets data)).

(** The dict that [train_label_router.py] pickles. *)
Definition router_artifact (name : string) (c : clf) (label_list : list string)
  : gmap string (pyval clf) :=
  <["embedder_name" := PStr name]>
    (<["classifier" := PClf c]> (<["label_list" := PStrList label_list]> ∅)).

Definition train_label_router_main (e : env) : proc unit :=
  if (length (argv e) <? 2)%nat then
    print_err "Usage: train_label_router.py <data.json> [output.pkl]" ;;
    sys_exit 1
  else
    path ← getitem (argv e) 1 ;
    data ← json_load e path ;
    if (length data =? 0)%nat then
      print_err "No samples" ;; sys_exit 1
    else
      import_deps e ". Install sentence-transformers scikit-learn" ;;
      let texts := sample_texts data in
      let targets := router_targets data in
      let label_list := label_catalog data in
      if (length label_list <? 2)%nat then
        print_json (JObj [
          ("samples", JInt (Z.of_nat (length data)));
          ("labels", JInt (Z.of_nat (length label_list)));
          ("skipped", JBool true);
          ("reason", JStr ("Need at least 2 distinct labels to train, got "
                           ++ pretty (length label_list)))]) ;;
        sys_exit 0
      else
        let name := model_name e in
        X ← call (embed name texts) ;
        c ← call (fit X (LStr <$> targets)) ;
        out_path ← (if (2 <? length (argv e))%nat
                    then getitem (argv e) 2
                    else (mret "./label_router_model.pkl" : proc string)) ;
        pickle_dump out_path (router_artifact name c label_list) ;;
        print_json (JObj [
          ("samples", JInt (Z.of_nat (length data)));
          ("labels", JInt (Z.of_nat (length label_list)));
          ("path", JStr out_path)]).

(** *** Reading an artifact back (both inference scripts) *)

(** The embedder's name is handed to [SentenceTransformer], which needs a
    string. *)
Definition as_model_name (v : pyval clf) : proc string :=
  match v with
  | PStr s => mret s
  | _ => raise TypeError
  end.

(** [classifier.predict_proba] and [classifier.classes_] need the stored
    value to be a classifier. *)
Definition as_classifier (attr : string) (v : pyval clf) : proc clf :=
  match v with
  | PClf c => mret c
  | _ => raise (AttributeError attr)
  end.

(** Iterating [label_list] needs a list. *)
Definition as_label_list (v : pyval clf) : proc (list string) :=
  match v with
  | PStrList l => mret l
  | _ => raise TypeError
  end.

(** [artifact = pickle.load(f)] followed by the field reads of
    [infer_important.py]: the embedder's name has a default, the classifier
    is required. *)
Definition load_importance_artifact (path : string)
  : proc (pyval clf * pyval clf) :=
  artifact ← pickle_load path ;
  let embedder_name := dict_get artifact "embedder_name" (PStr default_model) in
  classifier ← dict_getitem artifact "classifier" ;
  mret (embedder_name, classifier).

(** The same for [infer_label_router.py], which also requires the list of
    labels. *)
Definition load_router_artifact (path : string)
  : proc (pyval clf * pyval clf * pyval clf) :=
  artifact ← pickle_load path ;
  let embedder_name := dict_get artifact "embedder_name" (PStr default_model) in
  classifier ← dict_getitem artifact "classifier" ;
  label_list ← dict_getitem artifact "label_list" ;
  mret (embedder_name, classifier, label_list).

(** *** infer_important.py *)

(** [float(proba[1]) if len(proba) > 1 else float(proba[0])] *)
Definition p_important (proba : list Q) : proc Q :=
  if (1 <? length proba)%nat then getitem proba 1 else getitem proba 0.

(** The printed report. *)
Definition importance_report (p : Q) : json :=
  JObj [("important", JBool (ge_half p)); ("probability", JFloat (round4 p))].

Definition infer_important_main (e : env) : proc unit :=
  if (length (argv e) <? 3)%nat then
    print_err "Usage: infer_important.py <model.pkl> <text>" ;;
    sys_exit 1
  else
    model_path ← getitem (argv e) 1 ;
    text ← getitem (argv e) 2 ;
    import_deps e "" ;;
    '(embedder_name, classifier) ← load_importance_artifact model_path ;
    name ← as_model_name embedder_name ;
    embedding ← call (embed name [text]) ;
    c ← as_classifier "predict_proba" classifier ;
    probas ← call (predict_proba c embedding) ;
    proba ← getitem probas 0 ;
    p ← p_important proba ;
    print_json (importance_report p).

(** *** infer_label_router.py *)

(** The alignment loop: for each label of [label_list], in order, store
    the probability at the label's position in [classes], or [0.0] when the
    classifier does not know the label. *)
Fixpoint align (classes : list label) (proba : list Q)
  (label_list : list string) (head_weights : list (string * Q))
  : proc (list (string * Q)) :=
  match label_list with
  | [] => mret head_weights
  | l :: rest =>
      if decide (LStr l ∈ classes) then
        idx ← (match list_index (LStr l) classes with
               | Some i => mret i
               | None => raise ValueError
               end : proc nat) ;
        p ← getitem proba idx ;
        align classes proba rest (dict_setitem head_weights l p)
      else
        align classes proba rest (dict_setitem head_weights l (0 # 1)%Q)
  end.

(** The printed report. *)
Definition router_report (head_weights : list (string * Q))
  (label_list : list string) : json :=
  JObj [("head_weights", JObj ((λ kv, (kv.1, JFloat kv.2)) <$> head_weights));
        ("label_list", JArr (JStr <$> label_list))].

Definition infer_label_router_main (e : env) : proc unit :=
  if (length (argv e) <? 3)%nat then
    print_err "Usage: infer_label_router.py <model.pkl> <text>" ;;
    sys_exit 1
  else
    model_path ← getitem (argv e) 1 ;
    text ← getitem (argv e) 2 ;
    import_deps e "" ;;
    '(embedder_name, classifier, label_list_v) ← load_router_artifact model_path ;
    name ← as_model_name embedder_name ;
    embedding ← call (embed name [text]) ;
    c ← as_classifier "predict_proba" classifier ;
    probas ← call (predict_proba c embedding) ;
    proba ← getitem probas 0 ;
    let classes := classes_ c in
    label_list ← as_label_list label_list_v ;
    head_weights ← align classes proba label_list [] ;
    print_json (router_report head_weights label_list).


(** *** Steps that only return or raise *)

(** A computation that leaves the world as it is and either returns a
    value or raises an exception (it neither prints nor exits). *)
Definition raises_only {A : Type} (m : proc A) : Prop :=
  ∀ w, (∃ a, m w = (inr a, w)) ∨ (∃ x, m w = (inl (Raise x), w)).

(** * Properties *)

(** ** The lexicographic order is a total order *)

Lemma ascii_compare_refl (a : Ascii.ascii) : Ascii.compare a a = Eq.
Proof. unfold Ascii.compare. apply N.compare_refl. Qed.

Lemma string_compare_refl (s : string) : String.compare s s = Eq.
Proof. induction s as [|a s IH]; simpl; [done|]. by rewrite ascii_compare_refl. Qed.

Lemma ascii_compare_lt_trans (a b c : Ascii.ascii) :
  Ascii.compare a b = Lt → Ascii.compare b c = Lt → Ascii.compare a c = Lt.
Proof. unfold Ascii.compare. rewrite !N.compare_lt_iff. lia. Qed.

Lemma string_compare_lt_trans (s1 s2 s3 : string) :
  String.compare s1 s2 = Lt → String.compare s2 s3 = Lt →
  String.compare s1 s3 = Lt.
Proof.
  revert s2 s3. induction s1 as [|a s1 IH]; intros [|b s2] [|c s3]; simpl; try done.
  destruct (Ascii.compare a b) eqn:Hab; try done;
    destruct (Ascii.compare b c) eqn:Hbc; try done; intros H12 H23.
  - apply Ascii.compare_eq_iff in Hab, Hbc. subst.
    rewrite ascii_compare_refl. eauto.
  - apply Ascii.compare_eq_iff in Hab. subst. by rewrite Hbc.
  - apply Ascii.compare_eq_iff in Hbc. subst. by rewrite Hab.
  - by rewrite (ascii_compare_lt_trans a b c).
Qed.

Global Instance str_le_trans : Transitive str_le.
Proof.
  intros s1 s2 s3. unfold str_le, String.leb.
  destruct (String.compare s1 s2) eqn:H12; try done;
    destruct (String.compare s2 s3) eqn:H23; try done; intros _ _.
  - apply String.compare_eq_iff in H12, H23. subst. by rewrite string_compare_refl.
  - apply String.compare_eq_iff in H12. subst. by rewrite H23.
  - apply String.compare_eq_iff in H23. subst. by rewrite H12.
  - by rewrite (string_compare_lt_trans s1 s2 s3).
Qed.

Global Instance str_le_total : Total str_le.
Proof. intros s1 s2. apply String.leb_total. Qed.

Global Instance str_le_antisym : AntiSymm (=) str_le.
Proof. intros s1 s2 H1 H2. by apply String.leb_antisym. Qed.

(** ** [sorted(set(...))] *)

Lemma sorted_Permutation (s : gset string) : sorted s ≡ₚ elements s.
Proof. apply merge_sort_Permutation. Qed.

Lemma sorted_Sorted (s : gset string) : Sorted str_le (sorted s).
Proof. apply (Sorted_merge_sort str_le). Qed.

Lemma sorted_NoDup (s : gset string) : NoDup (sorted s).
Proof. rewrite sorted_Permutation. apply NoDup_elements. Qed.

Lemma elem_of_sorted (s : gset string) (x : string) : x ∈ sorted s ↔ x ∈ s.
Proof. rewrite sorted_Permutation. apply elem_of_elements. Qed.

Lemma length_sorted (s : gset string) : length (sorted s) = size s.
Proof. by rewrite sorted_Permutation. Qed.

(** A sorted duplicate-free list is determined by its members. *)
Lemma sorted_unique (l : list string) (s : gset string) :
  Sorted str_le l → NoDup l → (∀ x, x ∈ l ↔ x ∈ s) → l = sorted s.
Proof.
  intros Hs Hn Hm. apply (Sorted_unique str_le); [done|apply sorted_Sorted|].
  apply NoDup_Permutation; [done|apply sorted_NoDup|].
  intros x. by rewrite Hm, elem_of_sorted.
Qed.

Lemma py_set_Permutation {A : Type} `{Countable A} (xs ys : list A) :
  xs ≡ₚ ys → py_set xs = py_set ys.
Proof.
  intros Hp. apply set_eq. intros x. unfold py_set.
  by rewrite !elem_of_list_to_set, Hp.
Qed.

Lemma py_set_nonempty {A : Type} `{Countable A} (x : A) (xs : list A) :
  (1 ≤ size (py_set (x :: xs)))%nat.
Proof.
  assert (size (py_set (x :: xs)) ≠ 0)%nat; [|lia].
  rewrite size_non_empty_iff. intros Hempty.
  apply (not_elem_of_empty (C:=gset A) x). rewrite <-Hempty.
  unfold py_set. apply elem_of_list_to_set, list_elem_of_here.
Qed.


(** ** Running the process monad *)

Lemma bind_ret {A B : Type} (a : A) (k : A → proc B) (w : world) :
  (mret a ≫= k) w = k a w.
Proof. reflexivity. Qed.

Lemma bind_stop {A B : Type} (m : proc A) (k : A → proc B) (w w' : world) (s : stop) :
  m w = (inl s, w') → (m ≫= k) w = (inl s, w').
Proof. intros Hm. unfold mbind, proc_bind. by rewrite Hm. Qed.

Lemma bind_step {A B : Type} (m : proc A) (k : A → proc B) (w w' : world) (a : A) :
  m w = (inr a, w') → (m ≫= k) w = k a w'.
Proof. intros Hm. unfold mbind, proc_bind. by rewrite Hm. Qed.

Lemma call_inr {A : Type} (a : A) : call (inr a) = mret a.
Proof. reflexivity. Qed.

Lemma call_inl {A : Type} (x : exn) : call (A:=A) (inl x) = raise x.
Proof. reflexivity. Qed.

Lemma getitem_Some {A : Type} (l : list A) (i : nat) (a : A) :
  l !! i = Some a → getitem l i = mret a.
Proof. intros Hl. unfold getitem. by rewrite Hl. Qed.

Lemma lookup_length_ltb {A : Type} (l : list A) (i : nat) (a : A) (n : nat) :
  l !! i = Some a → (n ≤ S i)%nat → (length l <? n)%nat = false.
Proof. intros Hl%lookup_lt_Some Hn. apply Nat.ltb_ge. lia. Qed.

(** [argv[2] if len(argv) > 2 else dflt] *)
Lemma out_path_default (args : list string) (dflt : string) :
  (if (2 <? length args)%nat then getitem args 2 else (mret dflt : proc string))
  = mret (default dflt (args !! 2)).
Proof.
  destruct (2 <? length args)%nat eqn:Hlen.
  - apply Nat.ltb_lt in Hlen. destruct (lookup_lt_is_Some_2 args 2 Hlen) as [a Ha].
    rewrite (getitem_Some _ _ _ Ha). by rewrite Ha.
  - apply Nat.ltb_ge in Hlen. by rewrite (lookup_ge_None_2 args 2).
Qed.

Lemma length_eqb_0 {A : Type} (l : list A) : l ≠ [] → (length l =? 0)%nat = false.
Proof. destruct l; [done|]. intros _. reflexivity. Qed.

(** ** train_important.py: the degenerate guard *)



(** C10.  The access [labels[0]] that builds the skip reason is in bounds:
    an empty dataset makes the script exit with status 1 before the labels
    are looked at (whatever the state of the imports), a non-empty dataset
    has a first label, and on a non-empty degenerate dataset the script
    stops by [sys.exit], never by an exception. *)
Theorem train_important_first_label_in_bounds (e : env) (w : world)
  (path : string) (data : list row) :
  argv e !! 1%nat = Some path →
  data_files e !! path = Some data →
  (data = [] →
     run (train_important_main e) w =
       (Exit 1, World (files w) (stdout w) (stderr w ++ ["No samples"]))) ∧
  (data ≠ [] →
     ∃ b : bool, importance_labels data !! 0%nat = Some b ∧
       getitem (importance_labels data) 0 w = (inr b, w)) ∧
  (data ≠ [] → (size (py_set (importance_labels data)) < 2)%nat →
     ∀ x : exn, (run (train_important_main e) w).1 ≠ Raise x).
Proof.
  intros Hargv Hfile. split; [|split].
  - intros ->. unfold run, train_important_main.
    rewrite (lookup_length_ltb _ _ _ 2 Hargv) by lia.
    rewrite (getitem_Some _ _ _ Hargv), bind_ret.
    unfold json_load. by rewrite Hfile, bind_ret.
  - intros Hne. destruct data as [|r0 data]; [done|].
    exists (py_bool (important r0)). split; [done|].
    by rewrite (getitem_Some _ 0%nat (py_bool (important r0))).
  - intros Hne Hdeg x. unfold run, train_important_main.
    rewrite (lookup_length_ltb _ _ _ 2 Hargv) by lia.
    rewrite (getitem_Some _ _ _ Hargv), bind_ret.
    unfold json_load. rewrite Hfile, bind_ret.
    rewrite length_eqb_0 by done.
    apply Nat.ltb_lt in Hdeg. unfold import_deps.
    destruct (import_error e) as [msg|]; [done|].
    rewrite bind_ret, Hdeg.
    destruct data as [|r0 data]; [done|]. done.
Qed.

(** A missing dependency is reported before the labels are looked at: the
    guard is reached only with the imports in place. *)
Lemma train_important_import_error (e : env) (w : world)
  (path msg : string) (data : list row) :
  argv e !! 1%nat = Some path →
  data_files e !! path = Some data →
  data ≠ [] →
  import_error e = Some msg →
  run (train_important_main e) w =
    (Exit 2,
     World (files w) (stdout w)
       (stderr w ++ ["Import error: " ++ msg
                     ++ ". Install sentence-transformers scikit-learn"])).
Proof.
  intros Hargv Hfile Hne Himp. unfold run, train_important_main.
  rewrite (lookup_length_ltb _ _ _ 2 Hargv) by lia.
  rewrite (getitem_Some _ _ _ Hargv), bind_ret.
  unfold json_load. rewrite Hfile, bind_ret.
  rewrite length_eqb_0 by done.
  unfold import_deps. by rewrite Himp.
Qed.

(** ** train_label_router.py: the degenerate guard *)

Lemma label_catalog_length (data : list row) :
  length (label_catalog data) = size (py_set (router_targets data)).
Proof. apply length_sorted. Qed.

(** C4.  Router training on a non-empty sample list with fewer than two
    distinct target labels is skipped: the script prints a result with
    [skipped: true] and [labels: 1], leaves the files on disk as they were,
    and exits with status 0. *)
Theorem train_label_router_degenerate_skipped (e : env) (w : world)
  (path : string) (data : list row) :
  argv e !! 1%nat = Some path →
  data_files e !! path = Some data →
  data ≠ [] →
  import_error e = None →
  (size (py_set (router_targets data)) < 2)%nat →
  run (train_label_router_main e) w =
    (Exit 0,
     World (files w)
       (stdout w ++ [JObj [
          ("samples", JInt (Z.of_nat (length data)));
          ("labels", JInt 1);
          ("skipped", JBool true);
          ("reason", JStr "Need at least 2 distinct labels to train, got 1")]])
       (stderr w)).
Proof.
  intros Hargv Hfile Hne Himp Hdeg.
  assert (length (label_catalog data) = 1%nat) as Hone.
  { rewrite label_catalog_length. destruct data as [|r0 data]; [done|].
    pose proof (py_set_nonempty (or_str (target_label r0) "other")
                  (router_targets data)) as Hpos.
    change (router_targets (r0 :: data))
      with (or_str (target_label r0) "other" :: router_targets data) in Hdeg |- *.
    lia. }
  unfold run, train_label_router_main.
  rewrite (lookup_length_ltb _ _ _ 2 Hargv) by lia.
  rewrite (getitem_Some _ _ _ Hargv), bind_ret.
  unfold json_load. rewrite Hfile, bind_ret.
  rewrite length_eqb_0 by done.
  unfold import_deps. rewrite Himp, bind_ret.
  cbv zeta. rewrite Hone. reflexivity.
Qed.

(** ** train_label_router.py: the label catalog *)

Lemma router_targets_Permutation (d1 d2 : list row) :
  d1 ≡ₚ d2 → router_targets d1 ≡ₚ router_targets d2.
Proof. intros Hp. unfold router_targets. by rewrite Hp. Qed.

Lemma elem_of_label_catalog (data : list row) (x : string) :
  x ∈ label_catalog data ↔ x ∈ router_targets data.
Proof. unfold label_catalog. rewrite elem_of_sorted. apply elem_of_list_to_set. Qed.

(** C5.  The label catalog does not depend on the order of the samples:
    two sample sequences that are permutations of each other get the same
    catalog, and the catalog is the one increasing (lexicographic),
    duplicate-free sequence whose members are exactly the target labels
    that occur. *)
Theorem label_catalog_order_independent (d1 d2 : list row) :
  d1 ≡ₚ d2 →
  label_catalog d1 = label_catalog d2 ∧
  Sorted str_le (label_catalog d1) ∧
  NoDup (label_catalog d1) ∧
  (∀ x, x ∈ label_catalog d1 ↔ x ∈ router_targets d1) ∧
  (∀ l, Sorted str_le l → NoDup l → (∀ x, x ∈ l ↔ x ∈ router_targets d1) →
        l = label_catalog d1).
Proof.
  intros Hp. split; [|split; [|split; [|split]]].
  - unfold label_catalog.
    by rewrite (py_set_Permutation _ _ (router_targets_Permutation _ _ Hp)).
  - apply sorted_Sorted.
  - apply sorted_NoDup.
  - apply elem_of_label_catalog.
  - intros l Hs Hn Hm. apply sorted_unique; [done|done|].
    intros x. rewrite Hm. unfold py_set. by rewrite elem_of_list_to_set.
Qed.

(** A training run that gets past the guard writes the catalog, with the
    embedder's name and the fitted classifier, to the output path. *)
Lemma train_label_router_success (e : env) (w : world) (path : string)
  (data : list row) (X : list vec) (c : clf) :
  argv e !! 1%nat = Some path →
  data_files e !! path = Some data →
  import_error e = None →
  (2 ≤ size (py_set (router_targets data)))%nat →
  embed (model_name e) (sample_texts data) = inr X →
  fit X (LStr <$> router_targets data) = inr c →
  run (train_label_router_main e) w =
    (Exit 0,
     World
       (<[default "./label_router_model.pkl" (argv e !! 2%nat) :=
            pickle_dumps (router_artifact (model_name e) c (label_catalog data))]>
          (files w))
       (stdout w ++ [JObj [
          ("samples", JInt (Z.of_nat (length data)));
          ("labels", JInt (Z.of_nat (length (label_catalog data))));
          ("path", JStr (default "./label_router_model.pkl" (argv e !! 2%nat)))]])
       (stderr w)).
Proof.
  intros Hargv Hfile Himp Hsz Hembed Hfit.
  assert (data ≠ []) as Hne.
  { intros ->. by vm_compute in Hsz; lia. }
  unfold run, train_label_router_main.
  rewrite (lookup_length_ltb _ _ _ 2 Hargv) by lia.
  rewrite (getitem_Some _ _ _ Hargv), bind_ret.
  unfold json_load. rewrite Hfile, bind_ret.
  rewrite length_eqb_0 by done.
  unfold import_deps. rewrite Himp, bind_ret.
  cbv zeta. rewrite label_catalog_length.
  rewrite (proj2 (Nat.ltb_ge _ _) Hsz).
  rewrite Hembed, call_inr, bind_ret.
  rewrite Hfit, call_inr, bind_ret.
  rewrite out_path_default, bind_ret.
  reflexivity.
Qed.


(** ** The artifact codec: what training dumps, inference loads *)

Lemma pickle_load_dumped (path : string) (d : gmap string (pyval clf)) (w : world) :
  (∀ d', pickle_loads (pickle_dumps d') = inr d') →
  pickle_load path (pickle_dump path d w).2 = (inr d, (pickle_dump path d w).2).
Proof.
  intros Hpickle. unfold pickle_load, pickle_dump. simpl.
  by rewrite lookup_insert_eq, Hpickle.
Qed.

(** The keys that training writes are the keys that inference reads:
    provided [pickle.loads] inverts [pickle.dumps], reading back an
    artifact that training has just written returns it field for field. *)
Lemma artifact_round_trip (path name : string) (c : clf)
  (label_list : list string) (w : world) :
  (∀ d, pickle_loads (pickle_dumps d) = inr d) →
  (pickle_dump path (importance_artifact name c) ;;
   load_importance_artifact path) w =
    (inr (PStr name, PClf c),
     World (<[path := pickle_dumps (importance_artifact name c)]> (files w))
       (stdout w) (stderr w)) ∧
  (pickle_dump path (router_artifact name c label_list) ;;
   load_router_artifact path) w =
    (inr (PStr name, PClf c, PStrList label_list),
     World (<[path := pickle_dumps (router_artifact name c label_list)]> (files w))
       (stdout w) (stderr w)).
Proof.
  intros Hpickle. split.
  - rewrite (bind_step _ _ w (pickle_dump path (importance_artifact name c) w).2 ())
      by done.
    unfold load_importance_artifact.
    rewrite (bind_step _ _ _ _ _ (pickle_load_dumped path _ w Hpickle)).
    reflexivity.
  - rewrite (bind_step _ _ w (pickle_dump path (router_artifact name c label_list) w).2 ())
      by done.
    unfold load_router_artifact.
    rewrite (bind_step _ _ _ _ _ (pickle_load_dumped path _ w Hpickle)).
    reflexivity.
Qed.

(** ** Artifacts with a missing field *)

Lemma pickle_load_ok (path : string) (b : blob) (d : gmap string (pyval clf))
  (w : world) :
  files w !! path = Some b → pickle_loads b = inr d →
  pickle_load path w = (inr d, w).
Proof. intros Hf Hl. unfold pickle_load. by rewrite Hf, Hl. Qed.

(** What the two loaders do with a dict that lacks a field. *)
Lemma load_artifact_fields (path : string) (b : blob)
  (d : gmap string (pyval clf)) (w : world) :
  files w !! path = Some b →
  pickle_loads b = inr d →
  (d !! "classifier" = None →
     load_importance_artifact path w = (inl (Raise (KeyError "classifier")), w) ∧
     load_router_artifact path w = (inl (Raise (KeyError "classifier")), w)) ∧
  (∀ cv, d !! "classifier" = Some cv → d !! "label_list" = None →
     load_router_artifact path w = (inl (Raise (KeyError "label_list")), w)) ∧
  (∀ cv, d !! "embedder_name" = None → d !! "classifier" = Some cv →
     load_importance_artifact path w = (inr (PStr default_model, cv), w)) ∧
  (∀ cv lv, d !! "embedder_name" = None → d !! "classifier" = Some cv →
     d !! "label_list" = Some lv →
     load_router_artifact path w = (inr (PStr default_model, cv, lv), w)).
Proof.
  intros Hf Hl. pose proof (pickle_load_ok path b d w Hf Hl) as Hload.
  unfold load_importance_artifact, load_router_artifact, dict_getitem, dict_get.
  rewrite !(bind_step _ _ _ _ _ Hload).
  split; [|split; [|split]].
  - intros Hc. by rewrite Hc.
  - intros cv Hc Hll. by rewrite Hc, bind_ret, Hll.
  - intros cv Hn Hc. by rewrite Hn, Hc.
  - intros cv lv Hn Hc Hll. by rewrite Hn, Hc, bind_ret, Hll.
Qed.

Section MissingField.

(** An invocation [infer_*.py path text] with its imports in place, whose
    artifact unpickles to the dict [d]. *)
Variables (e : env) (w : world) (path text : string) (b : blob).
Variable d : gmap string (pyval clf).
Hypothesis Hpath : argv e !! 1%nat = Some path.
Hypothesis Htext : argv e !! 2%nat = Some text.
Hypothesis Himport : import_error e = None.
Hypothesis Hfile : files w !! path = Some b.
Hypothesis Hloads : pickle_loads b = inr d.

Lemma infer_important_load_fails (x : exn) :
  load_importance_artifact path w = (inl (Raise x), w) →
  run (infer_important_main e) w = (Raise x, w).
Proof.
  intros Hload. unfold run, infer_important_main.
  rewrite (lookup_length_ltb _ _ _ 3 Htext) by lia.
  rewrite (getitem_Some _ _ _ Hpath), bind_ret.
  rewrite (getitem_Some _ _ _ Htext), bind_ret.
  unfold import_deps. rewrite Himport, bind_ret.
  by rewrite (bind_stop _ _ _ _ _ Hload).
Qed.

Lemma infer_label_router_load_fails (x : exn) :
  load_router_artifact path w = (inl (Raise x), w) →
  run (infer_label_router_main e) w = (Raise x, w).
Proof.
  intros Hload. unfold run, infer_label_router_main.
  rewrite (lookup_length_ltb _ _ _ 3 Htext) by lia.
  rewrite (getitem_Some _ _ _ Hpath), bind_ret.
  rewrite (getitem_Some _ _ _ Htext), bind_ret.
  unfold import_deps. rewrite Himport, bind_ret.
  by rewrite (bind_stop _ _ _ _ _ Hload).
Qed.

(** C7, as the code has it.  An artifact without a classifier makes both
    inference scripts stop with [KeyError], and so does a router artifact
    without a list of labels; an artifact without the embedder's name is
    accepted, the default model name taking its place. *)
Theorem inference_artifact_missing_field :
  (d !! "classifier" = None →
     run (infer_important_main e) w = (Raise (KeyError "classifier"), w) ∧
     run (infer_label_router_main e) w = (Raise (KeyError "classifier"), w)) ∧
  (∀ cv, d !! "classifier" = Some cv → d !! "label_list" = None →
     run (infer_label_router_main e) w = (Raise (KeyError "label_list"), w)) ∧
  (∀ cv, d !! "embedder_name" = None → d !! "classifier" = Some cv →
     load_importance_artifact path w = (inr (PStr default_model, cv), w)) ∧
  (∀ cv lv, d !! "embedder_name" = None → d !! "classifier" = Some cv →
     d !! "label_list" = Some lv →
     load_router_artifact path w = (inr (PStr default_model, cv, lv), w)).
Proof.
  destruct (load_artifact_fields path b d w Hfile Hloads)
    as (Hno_clf & Hno_labels & Hdefault_imp & Hdefault_router).
  split; [|split; [|split]].
  - intros Hc. destruct (Hno_clf Hc) as [Himp Hrouter].
    split; [by apply infer_important_load_fails|by apply infer_label_router_load_fails].
  - intros cv Hc Hll. apply infer_label_router_load_fails. by apply (Hno_labels cv).
  - done.
  - done.
Qed.

End MissingField.

(** ** Threshold and rounding *)

Lemma round_half_even_bound (n : Z) (d : positive) :
  (2 * Z.abs (n - round_half_even n d * Z.pos d) ≤ Z.pos d)%Z.
Proof.
  unfold round_half_even.
  pose proof (Z.div_mod n (Z.pos d) ltac:(lia)) as Hdm.
  pose proof (Z.mod_pos_bound n (Z.pos d) ltac:(lia)) as Hr.
  destruct (Z.compare_spec (2 * (n mod Z.pos d)) (Z.pos d)) as [Heq|Hlt|Hgt];
    [destruct (Z.even (n / Z.pos d))| |]; nia.
Qed.

Lemma round4_multiple (p : Q) :
  (round4 p == round_half_even (Qnum p * 10000) (Qden p) # 10000)%Q.
Proof. unfold round4. apply Qred_correct. Qed.

Lemma round4_close (p : Q) : (Qabs (p - round4 p) <= 1 # 20000)%Q.
Proof.
  rewrite round4_multiple. destruct p as [n d]. simpl Qnum; simpl Qden.
  pose proof (round_half_even_bound (n * 10000) d) as Hb.
  set (m := round_half_even (n * 10000) d) in *.
  unfold Qminus, Qplus, Qopp, Qabs, Qle. simpl Qnum; simpl Qden.
  nia.
Qed.

Lemma ge_half_spec (p : Q) : ge_half p = true ↔ (1 # 2 <= p)%Q.
Proof. unfold ge_half. apply Qle_bool_iff. Qed.

Lemma round4_near_half (p : Q) :
  (49995 # 100000 <= p)%Q → (p < 1 # 2)%Q → round4 p = (1 # 2)%Q.
Proof.
  destruct p as [n d]. unfold Qle, Qlt, round4. simpl Qnum; simpl Qden.
  intros Hlo Hhi.
  assert (round_half_even (n * 10000) d = 5000%Z) as ->; [|reflexivity].
  unfold round_half_even.
  pose proof (Z.div_mod (n * 10000) (Z.pos d) ltac:(lia)) as Hdm.
  pose proof (Z.mod_pos_bound (n * 10000) (Z.pos d) ltac:(lia)) as Hr.
  assert ((n * 10000) / Z.pos d = 4999)%Z as Hfl.
  { symmetry. apply Z.div_unique with (r := (n * 10000 - 4999 * Z.pos d)%Z); lia. }
  rewrite Hfl in *.
  destruct (Z.compare_spec (2 * ((n * 10000) mod Z.pos d)) (Z.pos d)); [done|lia|done].
Qed.

(** ** Python dicts and [list.index] *)

Lemma list_index_Some {A : Type} `{EqDecision A} (x : A) (l : list A) :
  x ∈ l → ∃ i, list_index x l = Some i ∧ l !! i = Some x.
Proof.
  induction l as [|y l IH]; [by intros ?%elem_of_nil|].
  intros Hx. simpl. destruct (decide (y = x)) as [->|Hne].
  - by exists 0%nat.
  - apply elem_of_cons in Hx as [->|Hx]; [done|].
    destruct (IH Hx) as (i & Hi & Hl). exists (S i). by rewrite Hi.
Qed.

Lemma list_index_None {A : Type} `{EqDecision A} (x : A) (l : list A) :
  x ∉ l → list_index x l = None.
Proof.
  induction l as [|y l IH]; [done|].
  intros Hx. apply not_elem_of_cons in Hx as [Hne Hx]. simpl.
  destruct (decide (y = x)); [congruence|]. by rewrite IH.
Qed.

Lemma list_index_lookup {A : Type} `{EqDecision A} (x : A) (l : list A) (i : nat) :
  list_index x l = Some i → l !! i = Some x.
Proof.
  revert i. induction l as [|y l IH]; [done|]. intros i. simpl.
  destruct (decide (y = x)) as [->|Hne].
  - by intros [= <-].
  - destruct (list_index x l) as [j|]; [|done]. intros [= <-]. by apply IH.
Qed.

Lemma dict_setitem_keys_present {V : Type} (d : list (string * V)) (k : string) (v : V) :
  k ∈ d.*1 → (dict_setitem d k v).*1 = d.*1.
Proof.
  induction d as [|[k' v'] d IH]; [by intros ?%elem_of_nil|].
  csimpl. intros Hk. destruct (decide (k' = k)) as [->|Hne]; [done|].
  apply elem_of_cons in Hk as [->|Hk]; [done|]. csimpl. by rewrite IH.
Qed.

Lemma dict_setitem_keys_fresh {V : Type} (d : list (string * V)) (k : string) (v : V) :
  k ∉ d.*1 → (dict_setitem d k v).*1 = (d.*1 ++ [k])%list.
Proof.
  induction d as [|[k' v'] d IH]; [done|].
  csimpl. intros Hk. apply not_elem_of_cons in Hk as [Hne Hk].
  destruct (decide (k' = k)); [congruence|]. csimpl. by rewrite IH.
Qed.

Lemma dict_setitem_elem_of {V : Type} (d : list (string * V)) (k : string) (v : V) :
  (k, v) ∈ dict_setitem d k v.
Proof.
  induction d as [|[k' v'] d IH]; csimpl; [apply list_elem_of_here|].
  destruct (decide (k' = k)); [apply list_elem_of_here|by apply list_elem_of_further].
Qed.

Lemma dict_setitem_other {V : Type} (d : list (string * V)) (k k' : string) (v v' : V) :
  k' ≠ k → (k', v') ∈ d → (k', v') ∈ dict_setitem d k v.
Proof.
  intros Hne. induction d as [|[k0 v0] d IH]; [by intros ?%elem_of_nil|].
  csimpl. intros Hin. destruct (decide (k0 = k)) as [->|Hne0].
  - apply elem_of_cons in Hin as [[= -> ->]|Hin]; [done|by apply list_elem_of_further].
  - apply elem_of_cons in Hin as [->|Hin]; [apply list_elem_of_here|].
    apply list_elem_of_further. by apply IH.
Qed.

Lemma dict_setitem_keys_NoDup {V : Type} (d : list (string * V)) (k : string) (v : V) :
  NoDup d.*1 → NoDup (dict_setitem d k v).*1.
Proof.
  intros Hnd. destruct (decide (k ∈ d.*1)) as [Hk|Hk].
  - by rewrite dict_setitem_keys_present.
  - rewrite dict_setitem_keys_fresh by done.
    apply NoDup_app. split; [done|]. split; [|apply NoDup_singleton].
    intros x Hx ->%list_elem_of_singleton. done.
Qed.

Lemma dict_setitem_keys_elem_of {V : Type} (d : list (string * V)) (k k' : string) (v : V) :
  k' ∈ (dict_setitem d k v).*1 ↔ k' ∈ d.*1 ∨ k' = k.
Proof.
  destruct (decide (k ∈ d.*1)) as [Hk|Hk].
  - rewrite dict_setitem_keys_present by done.
    split; [by left|]. by intros [Hk'| ->].
  - rewrite dict_setitem_keys_fresh by done.
    rewrite elem_of_app, list_elem_of_singleton. done.
Qed.

(** Storing one value per key of [keys], in order, into a dict. *)
Section DictFold.
Context {V : Type} (f : string → V).

Lemma foldl_setitem_keys_NoDup (keys : list string) (d : list (string * V)) :
  NoDup d.*1 → NoDup (foldl (λ hw l, dict_setitem hw l (f l)) d keys).*1.
Proof.
  revert d. induction keys as [|a keys IH]; intros d Hnd; [done|].
  simpl. apply IH. by apply dict_setitem_keys_NoDup.
Qed.

Lemma foldl_setitem_keys_elem_of (keys : list string) (d : list (string * V))
  (k : string) :
  k ∈ (foldl (λ hw l, dict_setitem hw l (f l)) d keys).*1 ↔ k ∈ d.*1 ∨ k ∈ keys.
Proof.
  revert d. induction keys as [|a keys IH]; intros d; simpl.
  - rewrite elem_of_nil. split; [by left|]. by intros [Hk|[]].
  - rewrite IH, dict_setitem_keys_elem_of, elem_of_cons.
    split; [intros [[Hk| ->]|Hk]|intros [Hk|[->|Hk]]]; auto.
Qed.

Lemma foldl_setitem_keys_fresh (keys : list string) (d : list (string * V)) :
  NoDup keys → (∀ l, l ∈ keys → l ∉ d.*1) →
  (foldl (λ hw l, dict_setitem hw l (f l)) d keys).*1 = (d.*1 ++ keys)%list.
Proof.
  revert d. induction keys as [|a keys IH]; intros d Hnd Hfresh; simpl.
  - by rewrite app_nil_r.
  - apply NoDup_cons in Hnd as [Ha Hnd].
    rewrite IH; [|done|].
    + rewrite dict_setitem_keys_fresh by (apply Hfresh, list_elem_of_here).
      by rewrite <-app_assoc.
    + intros l Hl. rewrite dict_setitem_keys_elem_of. intros [Hd| ->]; [|done].
      by apply (Hfresh l); [apply list_elem_of_further|].
Qed.

Lemma foldl_setitem_preserved (keys : list string) (d : list (string * V))
  (k : string) (v : V) :
  (k, v) ∈ d → k ∉ keys → (k, v) ∈ foldl (λ hw l, dict_setitem hw l (f l)) d keys.
Proof.
  revert d. induction keys as [|a keys IH]; intros d Hin Hk; [done|].
  apply not_elem_of_cons in Hk as [Hne Hk]. simpl.
  apply IH; [|done]. by apply dict_setitem_other.
Qed.

Lemma foldl_setitem_value (keys : list string) (d : list (string * V)) (l : string) :
  l ∈ keys → (l, f l) ∈ foldl (λ hw l, dict_setitem hw l (f l)) d keys.
Proof.
  revert d. induction keys as [|a keys IH]; intros d Hl; [by apply elem_of_nil in Hl|].
  simpl. destruct (decide (l ∈ keys)) as [Hin|Hnotin]; [by apply IH|].
  apply elem_of_cons in Hl as [->|Hl]; [|done].
  apply foldl_setitem_preserved; [|done]. apply dict_setitem_elem_of.
Qed.

End DictFold.

(** ** infer_label_router.py: the alignment loop *)

(** When the probability vector covers the class list, the loop never
    fails: it stores, for each label in turn, the probability at the
    label's position among the classes, or zero. *)
Lemma align_foldl (classes : list label) (proba : list Q)
  (label_list : list string) (hw0 : list (string * Q)) (w : world) :
  (length classes ≤ length proba)%nat →
  align classes proba label_list hw0 w =
    (inr (foldl (λ hw l, dict_setitem hw l
                   (match list_index (LStr l) classes with
                    | Some i => default (0 # 1)%Q (proba !! i)
                    | None => (0 # 1)%Q
                    end)) hw0 label_list), w).
Proof.
  intros Hlen. revert hw0.
  induction label_list as [|l rest IH]; intros hw0; [done|].
  simpl. destruct (decide (LStr l ∈ classes)) as [Hin|Hnotin].
  - destruct (list_index_Some _ _ Hin) as (i & Hi & Hc). rewrite Hi, bind_ret.
    apply lookup_lt_Some in Hc.
    destruct (lookup_lt_is_Some_2 proba i ltac:(lia)) as [q Hq].
    rewrite (getitem_Some _ _ _ Hq), bind_ret, Hq. apply IH.
  - rewrite (list_index_None _ _ Hnotin). apply IH.
Qed.

(** ** infer_important.py *)

Lemma p_important_spec (proba : list Q) :
  proba ≠ [] →
  ∃ p : Q,
    ((1 < length proba)%nat → proba !! 1%nat = Some p) ∧
    (length proba = 1%nat → proba !! 0%nat = Some p) ∧
    p_important proba = mret p.
Proof.
  destruct proba as [|p0 [|p1 ps]]; [done| |]; intros _.
  - exists p0. split; [simpl; lia|done].
  - exists p1. split; [done|]. split; [simpl; lia|done].
Qed.

Section InferImportant.

(** An invocation [infer_important.py path text] with its imports in
    place, whose artifact unpickles to a dict [d] holding a classifier [c]
    and, possibly by default, the embedder's name [name]; the embedding and
    the prediction go through, and [proba] is the probability vector of the
    one text. *)
Variables (e : env) (w : world) (path text name : string) (b : blob).
Variables (d : gmap string (pyval clf)) (c : clf) (X : list vec).
Variables (proba : list Q) (more : list (list Q)).
Hypothesis Hpath : argv e !! 1%nat = Some path.
Hypothesis Htext : argv e !! 2%nat = Some text.
Hypothesis Himport : import_error e = None.
Hypothesis Hfile : files w !! path = Some b.
Hypothesis Hloads : pickle_loads b = inr d.
Hypothesis Hname : dict_get d "embedder_name" (PStr default_model) = PStr name.
Hypothesis Hclf : d !! "classifier" = Some (PClf c).
Hypothesis Hembed : embed name [text] = inr X.
Hypothesis Hpredict : predict_proba c X = inr (proba :: more).

Lemma infer_important_run (p : Q) :
  p_important proba = mret p →
  run (infer_important_main e) w =
    (Exit 0, World (files w) (stdout w ++ [importance_report p]) (stderr w)).
Proof.
  intros Hp. unfold run, infer_important_main.
  rewrite (lookup_length_ltb _ _ _ 3 Htext) by lia.
  rewrite (getitem_Some _ _ _ Hpath), bind_ret.
  rewrite (getitem_Some _ _ _ Htext), bind_ret.
  unfold import_deps. rewrite Himport, bind_ret.
  unfold load_importance_artifact.
  rewrite (bind_step _ _ w w (PStr name, PClf c)).
  2:{ rewrite (bind_step _ _ _ _ _ (pickle_load_ok path b d w Hfile Hloads)).
      unfold dict_getitem. by rewrite Hname, Hclf. }
  cbn [as_model_name]. rewrite bind_ret.
  rewrite Hembed, call_inr, bind_ret.
  cbn [as_classifier]. rewrite bind_ret.
  rewrite Hpredict, call_inr, bind_ret.
  rewrite (getitem_Some (proba :: more) 0%nat proba) by done.
  rewrite bind_ret, Hp, bind_ret.
  reflexivity.
Qed.

(** C2.  The probability of importance is entry 1 of the classifier's
    probability vector when the vector has more than one entry and its only
    entry otherwise; the printed [important] flag is true exactly when that
    probability is at least one half, and the printed [probability] is a
    multiple of 1/10000 at most 1/20000 away from it. *)
Theorem infer_important_postcondition :
  proba ≠ [] →
  ∃ p : Q,
    ((1 < length proba)%nat → proba !! 1%nat = Some p) ∧
    (length proba = 1%nat → proba !! 0%nat = Some p) ∧
    run (infer_important_main e) w =
      (Exit 0,
       World (files w)
         (stdout w ++ [JObj [("important", JBool (ge_half p));
                             ("probability", JFloat (round4 p))]])
         (stderr w)) ∧
    (ge_half p = true ↔ (1 # 2 <= p)%Q) ∧
    (∃ k : Z, (round4 p == k # 10000)%Q) ∧
    (Qabs (p - round4 p) <= 1 # 20000)%Q.
Proof.
  intros Hne. destruct (p_important_spec proba Hne) as (p & Hmany & Hone & Hp).
  exists p. split; [done|]. split; [done|].
  split; [by apply infer_important_run|].
  split; [apply ge_half_spec|]. split; [|apply round4_close].
  eexists. apply round4_multiple.
Qed.

(** C9.  The flag is decided before rounding: a probability of importance
    from 0.49995 up to, but not including, 0.5 (0.49997, say) is reported
    as [{important: false, probability: 0.5}]. *)
Theorem infer_important_threshold_before_rounding (p0 p : Q) (ps : list Q) :
  proba = p0 :: p :: ps →
  (49995 # 100000 <= p)%Q →
  (p < 1 # 2)%Q →
  run (infer_important_main e) w =
    (Exit 0,
     World (files w)
       (stdout w ++ [JObj [("important", JBool false);
                           ("probability", JFloat (1 # 2))]])
       (stderr w)).
Proof.
  intros Hproba Hlo Hhi.
  rewrite (infer_important_run p) by (by rewrite Hproba).
  unfold importance_report. rewrite (round4_near_half p Hlo Hhi).
  assert (ge_half p = false) as ->; [|done].
  apply not_true_is_false. rewrite ge_half_spec. by apply Qlt_not_le.
Qed.

End InferImportant.

(** ** infer_label_router.py *)

Section InferRouter.

(** An invocation [infer_label_router.py path text] with its imports in
    place, whose artifact unpickles to a dict [d] holding a classifier [c],
    the catalog [label_list] and, possibly by default, the embedder's name;
    the embedding and the prediction go through, and [proba] is the
    probability vector of the one text. *)
Variables (e : env) (w : world) (path text name : string) (b : blob).
Variables (d : gmap string (pyval clf)) (c : clf) (label_list : list string).
Variables (X : list vec) (proba : list Q) (more : list (list Q)).
Hypothesis Hpath : argv e !! 1%nat = Some path.
Hypothesis Htext : argv e !! 2%nat = Some text.
Hypothesis Himport : import_error e = None.
Hypothesis Hfile : files w !! path = Some b.
Hypothesis Hloads : pickle_loads b = inr d.
Hypothesis Hname : dict_get d "embedder_name" (PStr default_model) = PStr name.
Hypothesis Hclf : d !! "classifier" = Some (PClf c).
Hypothesis Hlabels : d !! "label_list" = Some (PStrList label_list).
Hypothesis Hembed : embed name [text] = inr X.
Hypothesis Hpredict : predict_proba c X = inr (proba :: more).

Lemma infer_label_router_run (hw : list (string * Q)) :
  align (classes_ c) proba label_list [] w = (inr hw, w) →
  run (infer_label_router_main e) w =
    (Exit 0, World (files w) (stdout w ++ [router_report hw label_list]) (stderr w)).
Proof.
  intros Halign. unfold run, infer_label_router_main.
  rewrite (lookup_length_ltb _ _ _ 3 Htext) by lia.
  rewrite (getitem_Some _ _ _ Hpath), bind_ret.
  rewrite (getitem_Some _ _ _ Htext), bind_ret.
  unfold import_deps. rewrite Himport, bind_ret.
  unfold load_router_artifact.
  rewrite (bind_step _ _ w w (PStr name, PClf c, PStrList label_list)).
  2:{ rewrite (bind_step _ _ _ _ _ (pickle_load_ok path b d w Hfile Hloads)).
      unfold dict_getitem. by rewrite Hname, Hclf, bind_ret, Hlabels. }
  cbn [as_model_name]. rewrite bind_ret.
  rewrite Hembed, call_inr, bind_ret.
  cbn [as_classifier]. rewrite bind_ret.
  rewrite Hpredict, call_inr, bind_ret.
  rewrite (getitem_Some (proba :: more) 0%nat proba) by done.
  rewrite bind_ret. cbn [as_label_list]. rewrite bind_ret.
  by rewrite (bind_step _ _ _ _ _ Halign).
Qed.

(** C1.  When the probability vector has one entry per class of the
    classifier, the printed [head_weights] has exactly one entry for each
    label of the catalog (in the catalog's order, the catalog being
    duplicate-free): a label the classifier knows carries the probability
    at its position among the classes, any other label carries 0.0; and
    the printed [label_list] is the catalog. *)
Theorem router_alignment_complete :
  length proba = length (classes_ c) →
  ∃ hw : list (string * Q),
    run (infer_label_router_main e) w =
      (Exit 0,
       World (files w)
         (stdout w ++ [JObj [
            ("head_weights", JObj ((λ kv, (kv.1, JFloat kv.2)) <$> hw));
            ("label_list", JArr (JStr <$> label_list))]])
         (stderr w)) ∧
    NoDup hw.*1 ∧
    (∀ l, l ∈ hw.*1 ↔ l ∈ label_list) ∧
    (NoDup label_list → hw.*1 = label_list) ∧
    (∀ l i, l ∈ label_list → list_index (LStr l) (classes_ c) = Some i →
       ∃ q, proba !! i = Some q ∧ (l, q) ∈ hw) ∧
    (∀ l, l ∈ label_list → LStr l ∉ classes_ c → (l, (0 # 1)%Q) ∈ hw).
Proof using Hpath Htext Himport Hfile Hloads Hname Hclf Hlabels Hembed Hpredict.
  intros Hlen.
  pose proof (align_foldl (classes_ c) proba label_list [] w ltac:(lia)) as Halign.
  eexists. split; [by apply infer_label_router_run|].
  split; [apply foldl_setitem_keys_NoDup, NoDup_nil_2|].
  split; [|split; [|split]].
  - intros l. rewrite foldl_setitem_keys_elem_of, elem_of_nil.
    split; [by intros [[]|Hl]|by right].
  - intros Hnd. rewrite foldl_setitem_keys_fresh; [done|done|].
    intros l _. apply not_elem_of_nil.
  - intros l i Hl Hi.
    pose proof (list_index_lookup _ _ _ Hi) as Hc%lookup_lt_Some.
    destruct (lookup_lt_is_Some_2 proba i ltac:(lia)) as [q Hq].
    exists q. split; [done|].
    pose proof (foldl_setitem_value
      (λ l, match list_index (LStr l) (classes_ c) with
            | Some i => default (0 # 1)%Q (proba !! i)
            | None => (0 # 1)%Q
            end) label_list [] l Hl) as Hv.
    simpl in Hv. by rewrite Hi, Hq in Hv.
  - intros l Hl Hnotin.
    pose proof (foldl_setitem_value
      (λ l, match list_index (LStr l) (classes_ c) with
            | Some i => default (0 # 1)%Q (proba !! i)
            | None => (0 # 1)%Q
            end) label_list [] l Hl) as Hv.
    simpl in Hv. by rewrite (list_index_None _ _ Hnotin) in Hv.
Qed.

End InferRouter.

(** ** What a run can do to the world *)

Lemma raises_only_ret {A : Type} (a : A) : raises_only (mret a).
Proof. intros w. left. by exists a. Qed.

Lemma raises_only_raise {A : Type} (x : exn) : raises_only (raise (A:=A) x).
Proof. intros w. right. by exists x. Qed.




Lemma raises_only_json_load (e : env) (path : string) :
  raises_only (json_load e path).
Proof.
  unfold json_load.
  destruct (data_files e !! path); [apply raises_only_ret|apply raises_only_raise].
Qed.














Lemma getitem_None {A : Type} (l : list A) (i : nat) :
  l !! i = None → getitem l i = raise IndexError.
Proof. intros Hl. unfold getitem. by rewrite Hl. Qed.

Lemma bind_raise {A B : Type} (x : exn) (k : A → proc B) (w : world) :
  (raise x ≫= k) w = (inl (Raise x), w).
Proof. reflexivity. Qed.




Lemma bool_labels_both (l : list bool) :
  (2 ≤ size (py_set l))%nat ↔ true ∈ l ∧ false ∈ l.
Proof.
  unfold py_set. split.
  - intros Hsz.
    assert (∀ b, b ∈ l) as Hall; [|by split].
    intros b. destruct (decide (b ∈ l)) as [|Hb]; [done|]. exfalso.
    assert ((list_to_set l : gset bool) ⊆ {[negb b]}) as Hsub.
    { intros b' Hb'%elem_of_list_to_set. apply elem_of_singleton.
      destruct b, b'; done. }
    apply subseteq_size in Hsub. rewrite size_singleton in Hsub. lia.
  - intros [Ht Hf].
    assert (({[true; false]} : gset bool) ⊆ list_to_set l) as Hsub.
    { intros b Hb. apply elem_of_list_to_set. by destruct b. }
    apply subseteq_size in Hsub.
    by replace (size ({[true; false]} : gset bool)) with 2%nat in Hsub.
Qed.


(** ** Training runs that reach the classifier *)

Section TrainImportant.

(** An invocation [train_important.py path [out]] with its imports in
    place, whose samples hold both an important and an unimportant one. *)
Variables (e : env) (w : world) (path : string) (data : list row).
Hypothesis Hpath : argv e !! 1%nat = Some path.
Hypothesis Hdata : data_files e !! path = Some data.
Hypothesis Himport : import_error e = None.
Hypothesis Htrue : true ∈ importance_labels data.
Hypothesis Hfalse : false ∈ importance_labels data.

Lemma train_important_past_guard :
  run (train_important_main e) w =
    run (X ← call (embed (model_name e) (sample_texts data)) ;
         c ← call (fit X (LBool <$> importance_labels data)) ;
         pickle_dump (default "./important_model.pkl" (argv e !! 2%nat))
           (importance_artifact (model_name e) c) ;;
         print_json (JObj [
           ("samples", JInt (Z.of_nat (length data)));
           ("path", JStr (default "./important_model.pkl" (argv e !! 2%nat)))])) w.
Proof using Hpath Hdata Himport Htrue Hfalse.
  assert (data ≠ []) as Hne.
  { intros ->. by apply elem_of_nil in Htrue. }
  assert (2 ≤ size (py_set (importance_labels data)))%nat as Hsz
    by by apply bool_labels_both.
  unfold run, train_important_main.
  rewrite (lookup_length_ltb _ _ _ 2 Hpath) by lia.
  rewrite (getitem_Some _ _ _ Hpath), bind_ret.
  unfold json_load. rewrite Hdata, bind_ret.
  rewrite length_eqb_0 by done.
  unfold import_deps. rewrite Himport, bind_ret.
  cbv zeta. rewrite (proj2 (Nat.ltb_ge _ _) Hsz).
  f_equal. unfold mbind, proc_bind.
  destruct (call (embed (model_name e) (sample_texts data)) w) as [[s|X] w1]; [done|].
  destruct (call (fit X (LBool <$> importance_labels data)) w1) as [[s|c] w2]; [done|].
  by rewrite out_path_default.
Qed.

Lemma train_important_success (X : list vec) (c : clf) :
  embed (model_name e) (sample_texts data) = inr X →
  fit X (LBool <$> importance_labels data) = inr c →
  run (train_important_main e) w =
    (Exit 0,
     World
       (<[default "./important_model.pkl" (argv e !! 2%nat) :=
            pickle_dumps (importance_artifact (model_name e) c)]> (files w))
       (stdout w ++ [JObj [
          ("samples", JInt (Z.of_nat (length data)));
          ("path", JStr (default "./important_model.pkl" (argv e !! 2%nat)))]])
       (stderr w)).
Proof using Hpath Hdata Himport Htrue Hfalse.
  intros Hembed Hfit. rewrite train_important_past_guard.
  unfold run. by rewrite Hembed, call_inr, bind_ret, Hfit, call_inr, bind_ret.
Qed.

(** X6.  A failure of the embedding provider or of the fit is neither
    caught nor retried: the run ends on that exception, before the script
    pickles anything to the output path and before it prints its summary
    on stdout. *)
Theorem train_important_failure_uncaught (x : exn) :
  embed (model_name e) (sample_texts data) = inl x ∨
  (∃ X, embed (model_name e) (sample_texts data) = inr X ∧
        fit X (LBool <$> importance_labels data) = inl x) →
  (run (train_important_main e) w).1 = Raise x ∧
  files (run (train_important_main e) w).2
    !! default "./important_model.pkl" (argv e !! 2%nat)
    = files w !! default "./important_model.pkl" (argv e !! 2%nat) ∧
  stdout (run (train_important_main e) w).2 = stdout w.
Proof using Hpath Hdata Himport Htrue Hfalse.
  intros Hfail. rewrite train_important_past_guard. unfold run.
  destruct Hfail as [Hembed|(X & Hembed & Hfit)].
  - by rewrite Hembed, call_inl, bind_raise.
  - by rewrite Hembed, call_inr, bind_ret, Hfit, call_inl, bind_raise.
Qed.

End TrainImportant.

(** ** Training, then inference on the artifact just written *)

Lemma two_targets_catalog (data : list row) (t1 t2 : string) :
  t1 ∈ router_targets data → t2 ∈ router_targets data → t1 ≠ t2 →
  (2 ≤ size (py_set (router_targets data)))%nat.
Proof.
  intros H1 H2 Hne. unfold py_set.
  assert (({[t1; t2]} : gset string) ⊆ list_to_set (router_targets data)) as Hsub.
  { intros t [->%elem_of_singleton| ->%elem_of_singleton]%elem_of_union;
      by apply elem_of_list_to_set. }
  apply subseteq_size in Hsub.
  rewrite size_union in Hsub by (by apply disjoint_singleton_l, not_elem_of_singleton).
  by rewrite !size_singleton in Hsub.
Qed.

Lemma importance_artifact_fields (name : string) (c : clf) :
  dict_get (importance_artifact name c) "embedder_name" (PStr default_model)
    = PStr name ∧
  importance_artifact name c !! "classifier" = Some (PClf c).
Proof.
  unfold dict_get, importance_artifact. split.
  - by rewrite lookup_insert_eq.
  - rewrite lookup_insert_ne by done. by rewrite lookup_insert_eq.
Qed.

Lemma router_artifact_fields (name : string) (c : clf) (label_list : list string) :
  dict_get (router_artifact name c label_list) "embedder_name" (PStr default_model)
    = PStr name ∧
  router_artifact name c label_list !! "classifier" = Some (PClf c) ∧
  router_artifact name c label_list !! "label_list" = Some (PStrList label_list).
Proof.
  unfold dict_get, router_artifact. split; [|split].
  - by rewrite lookup_insert_eq.
  - rewrite lookup_insert_ne by done. by rewrite lookup_insert_eq.
  - rewrite !lookup_insert_ne by done. by rewrite lookup_insert_eq.
Qed.

Section TrainThenInfer.

(** The pickle library reads back what it wrote.  A training invocation
    [e] is followed by an inference invocation [e'] whose first argument is
    the path training wrote to. *)
Hypothesis Hpickle : ∀ d, pickle_loads (pickle_dumps d) = inr d.
Variables (e e' : env) (w : world) (path text : string) (data : list row).
Variables (X : list vec) (c : clf) (X' : list vec).
Variables (proba : list Q) (more : list (list Q)).
Hypothesis Hpath : argv e !! 1%nat = Some path.
Hypothesis Hdata : data_files e !! path = Some data.
Hypothesis Himport : import_error e = None.
Hypothesis Hembed : embed (model_name e) (sample_texts data) = inr X.
Hypothesis Htext' : argv e' !! 2%nat = Some text.
Hypothesis Himport' : import_error e' = None.
Hypothesis Hembed' : embed (model_name e) [text] = inr X'.
Hypothesis Hpredict' : predict_proba c X' = inr (proba :: more).

(** X7.  Importance training followed by importance inference on the file
    just written: inference finds the classifier that training fitted and
    embeds the text with the model name recorded at training time (the
    [EMBEDDING_MODEL] of the inference run plays no part); the two runs
    together print the training summary and then the report for the
    classifier's probability of importance. *)
Theorem train_then_infer_important :
  true ∈ importance_labels data →
  false ∈ importance_labels data →
  fit X (LBool <$> importance_labels data) = inr c →
  argv e' !! 1%nat = Some (default "./important_model.pkl" (argv e !! 2%nat)) →
  proba ≠ [] →
  ∃ p : Q,
    ((1 < length proba)%nat → proba !! 1%nat = Some p) ∧
    (length proba = 1%nat → proba !! 0%nat = Some p) ∧
    run (infer_important_main e') (run (train_important_main e) w).2 =
      (Exit 0,
       World
         (<[default "./important_model.pkl" (argv e !! 2%nat) :=
              pickle_dumps (importance_artifact (model_name e) c)]> (files w))
         (stdout w ++ [JObj [
            ("samples", JInt (Z.of_nat (length data)));
            ("path", JStr (default "./important_model.pkl" (argv e !! 2%nat)))];
                       importance_report p])
         (stderr w)).
Proof using Hpickle Hpath Hdata Himport Hembed Htext' Himport' Hembed' Hpredict'.
  intros Htrue Hfalse Hfit Hpath' Hne.
  destruct (p_important_spec proba Hne) as (p & Hmany & Hone & Hp).
  exists p. split; [done|]. split; [done|].
  rewrite (train_important_success e w path data Hpath Hdata Himport
             Htrue Hfalse X c Hembed Hfit).
  cbn [snd].
  destruct (importance_artifact_fields (model_name e) c) as [Hname Hclf].
  rewrite (infer_important_run e' _
    (default "./important_model.pkl" (argv e !! 2%nat)) text (model_name e)
    (pickle_dumps (importance_artifact (model_name e) c))
    (importance_artifact (model_name e) c) c X' proba more
    Hpath' Htext' Himport' (lookup_insert_eq _ _ _) (Hpickle _) Hname Hclf
    Hembed' Hpredict' p Hp).
  cbn [files stdout stderr]. by rewrite <-app_assoc.
Qed.

(** X8.  Router training followed by router inference on the file just
    written: the keys of the printed [head_weights] and the printed
    [label_list] are both the catalog computed at training time, the
    target labels of the samples in increasing order without duplicates. *)
Theorem train_then_infer_router (t1 t2 : string) :
  t1 ∈ router_targets data → t2 ∈ router_targets data → t1 ≠ t2 →
  fit X (LStr <$> router_targets data) = inr c →
  argv e' !! 1%nat = Some (default "./label_router_model.pkl" (argv e !! 2%nat)) →
  length proba = length (classes_ c) →
  ∃ hw : list (string * Q),
    hw.*1 = label_catalog data ∧
    run (infer_label_router_main e') (run (train_label_router_main e) w).2 =
      (Exit 0,
       World
         (<[default "./label_router_model.pkl" (argv e !! 2%nat) :=
              pickle_dumps (router_artifact (model_name e) c (label_catalog data))]>
            (files w))
         (stdout w ++ [JObj [
            ("samples", JInt (Z.of_nat (length data)));
            ("labels", JInt (Z.of_nat (length (label_catalog data))));
            ("path", JStr (default "./label_router_model.pkl" (argv e !! 2%nat)))];
                       router_report hw (label_catalog data)])
         (stderr w)).
Proof using Hpickle Hpath Hdata Himport Hembed Htext' Himport' Hembed' Hpredict'.
  intros Ht1 Ht2 Hne Hfit Hpath' Hlen.
  pose proof (two_targets_catalog data t1 t2 Ht1 Ht2 Hne) as Hsz.
  rewrite (train_label_router_success e w path data X c Hpath Hdata Himport
             Hsz Hembed Hfit).
  cbn [snd].
  destruct (router_artifact_fields (model_name e) c (label_catalog data))
    as (Hname & Hclf & Hlabels).
  match goal with |- context [run _ ?w1] =>
    pose proof (align_foldl (classes_ c) proba (label_catalog data) [] w1
                  ltac:(lia)) as Halign
  end.
  eexists. split; [|
    rewrite (infer_label_router_run e' _
      (default "./label_router_model.pkl" (argv e !! 2%nat)) text (model_name e)
      (pickle_dumps (router_artifact (model_name e) c (label_catalog data)))
      (router_artifact (model_name e) c (label_catalog data)) c
      (label_catalog data) X' proba more
      Hpath' Htext' Himport' (lookup_insert_eq _ _ _) (Hpickle _) Hname Hclf Hlabels
      Hembed' Hpredict' _ Halign);
    cbn [files stdout stderr]; by rewrite <-app_assoc].
  rewrite foldl_setitem_keys_fresh; [done|apply sorted_NoDup|].
  intros l _. apply not_elem_of_nil.
Qed.

End TrainThenInfer.

(** ** Inference: the edges *)

Lemma align_raises_index_error (classes : list label) (proba : list Q)
  (label_list : list string) (hw0 : list (string * Q)) (w : world)
  (l : string) (i : nat) :
  l ∈ label_list → list_index (LStr l) classes = Some i →
  (length proba ≤ i)%nat →
  align classes proba label_list hw0 w = (inl (Raise IndexError), w).
Proof.
  intros Hl Hi Hshort. revert hw0.
  induction label_list as [|l0 rest IH]; intros hw0; [by apply elem_of_nil in Hl|].
  simpl. destruct (decide (LStr l0 ∈ classes)) as [Hin|Hnotin].
  - destruct (list_index_Some _ _ Hin) as (j & Hj & _). rewrite Hj, bind_ret.
    destruct (proba !! j) as [q|] eqn:Hq.
    + rewrite (getitem_Some _ _ _ Hq), bind_ret.
      apply elem_of_cons in Hl as [->|Hl]; [|by apply IH].
      apply lookup_lt_Some in Hq. rewrite Hi in Hj. injection Hj as ->. lia.
    + by rewrite (getitem_None _ _ Hq), bind_raise.
  - apply elem_of_cons in Hl as [->|Hl]; [|by apply IH].
    by rewrite (list_index_None _ _ Hnotin) in Hi.
Qed.

Section InferEdges.

(** An invocation [infer_*.py path text] with its imports in place, whose
    artifact unpickles to a dict [d] holding a classifier [c] and, possibly
    by default, the embedder's name; the embedding goes through. *)
Variables (e : env) (w : world) (path text name : string) (b : blob).
Variables (d : gmap string (pyval clf)) (c : clf) (X : list vec).
Hypothesis Hpath : argv e !! 1%nat = Some path.
Hypothesis Htext : argv e !! 2%nat = Some text.
Hypothesis Himport : import_error e = None.
Hypothesis Hfile : files w !! path = Some b.
Hypothesis Hloads : pickle_loads b = inr d.
Hypothesis Hname : dict_get d "embedder_name" (PStr default_model) = PStr name.
Hypothesis Hclf : d !! "classifier" = Some (PClf c).
Hypothesis Hembed : embed name [text] = inr X.

Lemma infer_important_to_prediction :
  run (infer_important_main e) w =
    run (probas ← call (predict_proba c X) ;
         proba ← getitem probas 0 ;
         p ← p_important proba ;
         print_json (importance_report p)) w.
Proof using Hpath Htext Himport Hfile Hloads Hname Hclf Hembed.
  unfold run, infer_important_main.
  rewrite (lookup_length_ltb _ _ _ 3 Htext) by lia.
  rewrite (getitem_Some _ _ _ Hpath), bind_ret.
  rewrite (getitem_Some _ _ _ Htext), bind_ret.
  unfold import_deps. rewrite Himport, bind_ret.
  unfold load_importance_artifact.
  rewrite (bind_step _ _ w w (PStr name, PClf c)).
  2:{ rewrite (bind_step _ _ _ _ _ (pickle_load_ok path b d w Hfile Hloads)).
      unfold dict_getitem. by rewrite Hname, Hclf. }
  cbn [as_model_name]. rewrite bind_ret.
  rewrite Hembed, call_inr, bind_ret.
  cbn [as_classifier]. by rewrite bind_ret.
Qed.

(** X10.  When the classifier raises, returns no row, or returns an empty
    probability vector, [infer_important.py] ends on the exception (an
    [IndexError] in the last two cases) without printing a report on
    stdout. *)
Theorem infer_important_bad_prediction_raises :
  (∀ x, predict_proba c X = inl x →
        (run (infer_important_main e) w).1 = Raise x ∧
        stdout (run (infer_important_main e) w).2 = stdout w) ∧
  (predict_proba c X = inr [] →
     (run (infer_important_main e) w).1 = Raise IndexError ∧
     stdout (run (infer_important_main e) w).2 = stdout w) ∧
  (∀ more, predict_proba c X = inr ([] :: more) →
     (run (infer_important_main e) w).1 = Raise IndexError ∧
     stdout (run (infer_important_main e) w).2 = stdout w).
Proof using Hpath Htext Himport Hfile Hloads Hname Hclf Hembed.
  rewrite infer_important_to_prediction. unfold run.
  split; [|split].
  - intros x Hp. by rewrite Hp.
  - intros Hp. by rewrite Hp.
  - intros more Hp. by rewrite Hp.
Qed.

Lemma infer_label_router_to_alignment (label_list : list string)
  (proba : list Q) (more : list (list Q)) :
  d !! "label_list" = Some (PStrList label_list) →
  predict_proba c X = inr (proba :: more) →
  run (infer_label_router_main e) w =
    run (head_weights ← align (classes_ c) proba label_list [] ;
         print_json (router_report head_weights label_list)) w.
Proof using Hpath Htext Himport Hfile Hloads Hname Hclf Hembed.
  intros Hlabels Hpredict. unfold run, infer_label_router_main.
  rewrite (lookup_length_ltb _ _ _ 3 Htext) by lia.
  rewrite (getitem_Some _ _ _ Hpath), bind_ret.
  rewrite (getitem_Some _ _ _ Htext), bind_ret.
  unfold import_deps. rewrite Himport, bind_ret.
  unfold load_router_artifact.
  rewrite (bind_step _ _ w w (PStr name, PClf c, PStrList label_list)).
  2:{ rewrite (bind_step _ _ _ _ _ (pickle_load_ok path b d w Hfile Hloads)).
      unfold dict_getitem. by rewrite Hname, Hclf, bind_ret, Hlabels. }
  cbn [as_model_name]. rewrite bind_ret.
  rewrite Hembed, call_inr, bind_ret.
  cbn [as_classifier]. rewrite bind_ret.
  rewrite Hpredict, call_inr, bind_ret.
  rewrite (getitem_Some (proba :: more) 0%nat proba) by done.
  rewrite bind_ret. cbn [as_label_list]. by rewrite bind_ret.
Qed.

(** X9.  When some label of the catalog is known to the classifier at a
    position that the probability vector does not reach,
    [infer_label_router.py] ends on an [IndexError] without printing a
    report on stdout, not even the weights of the labels it had already
    aligned. *)
Theorem infer_label_router_short_proba_raises (label_list : list string)
  (proba : list Q) (more : list (list Q)) (l : string) (i : nat) :
  d !! "label_list" = Some (PStrList label_list) →
  predict_proba c X = inr (proba :: more) →
  l ∈ label_list →
  list_index (LStr l) (classes_ c) = Some i →
  (length proba ≤ i)%nat →
  (run (infer_label_router_main e) w).1 = Raise IndexError ∧
  stdout (run (infer_label_router_main e) w).2 = stdout w.
Proof using Hpath Htext Himport Hfile Hloads Hname Hclf Hembed.
  intros Hlabels Hpredict Hl Hi Hshort.
  rewrite (infer_label_router_to_alignment label_list proba more Hlabels Hpredict).
  unfold run.
  by rewrite (bind_stop _ _ _ _ _
    (align_raises_index_error _ _ _ [] w l i Hl Hi Hshort)).
Qed.

End InferEdges.

(** X11.  The order of the checks of the inference scripts: too few
    arguments end the run with status 1 and the usage line; otherwise a
    missing dependency ends it with status 2 before the artifact is
    opened; otherwise a missing artifact file makes the run end on
    [FileNotFoundError] and an unreadable one on what [pickle.load]
    raises. *)
Theorem inference_checks_in_order (e : env) (w : world) (path text msg : string)
  (b : blob) (x : exn) :
  ((length (argv e) < 3)%nat →
     run (infer_important_main e) w =
       (Exit 1, World (files w) (stdout w)
          (stderr w ++ ["Usage: infer_important.py <model.pkl> <text>"])) ∧
     run (infer_label_router_main e) w =
       (Exit 1, World (files w) (stdout w)
          (stderr w ++ ["Usage: infer_label_router.py <model.pkl> <text>"]))) ∧
  (argv e !! 1%nat = Some path → argv e !! 2%nat = Some text →
     (import_error e = Some msg →
        run (infer_important_main e) w =
          (Exit 2, World (files w) (stdout w)
             (stderr w ++ ["Import error: " ++ msg ++ ""])) ∧
        run (infer_label_router_main e) w =
          (Exit 2, World (files w) (stdout w)
             (stderr w ++ ["Import error: " ++ msg ++ ""]))) ∧
     (import_error e = None → files w !! path = None →
        (run (infer_important_main e) w).1 = Raise (FileNotFoundError path) ∧
        (run (infer_label_router_main e) w).1 = Raise (FileNotFoundError path)) ∧
     (import_error e = None → files w !! path = Some b → pickle_loads b = inl x →
        (run (infer_important_main e) w).1 = Raise x ∧
        (run (infer_label_router_main e) w).1 = Raise x)).
Proof.
  split.
  - intros Hlen%Nat.ltb_lt. unfold run, infer_important_main, infer_label_router_main.
    by rewrite Hlen.
  - intros Hpath Htext.
    unfold run, infer_important_main, infer_label_router_main.
    rewrite (lookup_length_ltb _ _ _ 3 Htext) by lia.
    rewrite !(getitem_Some _ _ _ Hpath), !bind_ret.
    rewrite !(getitem_Some _ _ _ Htext), !bind_ret.
    unfold import_deps. split; [|split].
    + intros Himp. by rewrite Himp.
    + intros Himp Hfile. rewrite Himp, !bind_ret.
      unfold load_importance_artifact, load_router_artifact.
      assert (pickle_load path w = (inl (Raise (FileNotFoundError path)), w)) as Hload.
      { unfold pickle_load. by rewrite Hfile. }
      by rewrite !(bind_stop _ _ _ _ _ (bind_stop _ _ _ _ _ Hload)).
    + intros Himp Hfile Hloads. rewrite Himp, !bind_ret.
      unfold load_importance_artifact, load_router_artifact.
      assert (pickle_load path w = (inl (Raise x), w)) as Hload.
      { unfold pickle_load. by rewrite Hfile, Hloads. }
      by rewrite !(bind_stop _ _ _ _ _ (bind_stop _ _ _ _ _ Hload)).
Qed.

(** X12.  The order of the checks of the training scripts: too few
    arguments end the run with status 1 and the usage line; otherwise the
    training file is read first, so that a missing file raises
    [FileNotFoundError] and an empty one ends the run with status 1 and
    [No samples] even when a dependency is missing; only then is a missing
    dependency reported, with status 2. *)
Theorem training_checks_order (e : env) (w : world) (path msg : string)
  (data : list row) :
  ((length (argv e) < 2)%nat →
     run (train_important_main e) w =
       (Exit 1, World (files w) (stdout w)
          (stderr w ++ ["Usage: train_important.py <data.json> [output.pkl]"])) ∧
     run (train_label_router_main e) w =
       (Exit 1, World (files w) (stdout w)
          (stderr w ++ ["Usage: train_label_router.py <data.json> [output.pkl]"]))) ∧
  (argv e !! 1%nat = Some path →
     (data_files e !! path = None →
        run (train_important_main e) w = (Raise (FileNotFoundError path), w) ∧
        run (train_label_router_main e) w = (Raise (FileNotFoundError path), w)) ∧
     (data_files e !! path = Some [] →
        run (train_important_main e) w =
          (Exit 1, World (files w) (stdout w) (stderr w ++ ["No samples"])) ∧
        run (train_label_router_main e) w =
          (Exit 1, World (files w) (stdout w) (stderr w ++ ["No samples"]))) ∧
     (data_files e !! path = Some data → data ≠ [] → import_error e = Some msg →
        run (train_important_main e) w =
          (Exit 2, World (files w) (stdout w)
             (stderr w ++ ["Import error: " ++ msg
                           ++ ". Install sentence-transformers scikit-learn"])) ∧
        run (train_label_router_main e) w =
          (Exit 2, World (files w) (stdout w)
             (stderr w ++ ["Import error: " ++ msg
                           ++ ". Install sentence-transformers scikit-learn"])))).
Proof.
  split.
  - intros Hlen%Nat.ltb_lt. unfold run, train_important_main, train_label_router_main.
    by rewrite Hlen.
  - intros Hpath.
    unfold run, train_important_main, train_label_router_main.
    rewrite (lookup_length_ltb _ _ _ 2 Hpath) by lia.
    rewrite !(getitem_Some _ _ _ Hpath), !bind_ret.
    unfold json_load. split; [|split].
    + intros Hdata. by rewrite Hdata.
    + intros Hdata. by rewrite Hdata.
    + intros Hdata Hne Himp. rewrite Hdata, !bind_ret.
      rewrite length_eqb_0 by done.
      unfold import_deps. by rewrite Himp.
Qed.

(** ** The sum of the head weights *)

Lemma dict_setitem_fresh {V : Type} (d : list (string * V)) (k : string) (v : V) :
  k ∉ d.*1 → dict_setitem d k v = (d ++ [(k, v)])%list.
Proof.
  induction d as [|[k' v'] d IH]; [done|].
  csimpl. intros Hk. apply not_elem_of_cons in Hk as [Hne Hk].
  destruct (decide (k' = k)); [congruence|]. by rewrite IH.
Qed.

Lemma foldl_setitem_fresh {V : Type} (f : string → V) (keys : list string)
  (d : list (string * V)) :
  NoDup keys → (∀ l, l ∈ keys → l ∉ d.*1) →
  foldl (λ hw l, dict_setitem hw l (f l)) d keys
    = (d ++ ((λ l, (l, f l)) <$> keys))%list.
Proof.
  revert d. induction keys as [|a keys IH]; intros d Hnd Hfresh; csimpl.
  - by rewrite app_nil_r.
  - apply NoDup_cons in Hnd as [Ha Hnd].
    rewrite dict_setitem_fresh by (apply Hfresh, list_elem_of_here).
    rewrite IH; [by rewrite <-app_assoc|done|].
    intros l Hl. rewrite fmap_app, elem_of_app. intros [Hd|Hl'].
    + by apply (Hfresh l); [apply list_elem_of_further|].
    + apply list_elem_of_singleton in Hl'. by subst.
Qed.

Lemma qsum_zero {A : Type} (g : A → Q) (l : list A) :
  (∀ a, a ∈ l → (g a == 0)%Q) → (foldr Qplus (0 # 1) (g <$> l) == 0)%Q.
Proof.
  induction l as [|a l IH]; intros Hz; csimpl; [reflexivity|].
  rewrite (Hz a) by apply list_elem_of_here.
  rewrite IH; [reflexivity|]. intros a' Ha'. by apply Hz, list_elem_of_further.
Qed.

Lemma qsum_ext {A : Type} (g h : A → Q) (l : list A) :
  (∀ a, a ∈ l → (g a == h a)%Q) →
  (foldr Qplus (0 # 1) (g <$> l) == foldr Qplus (0 # 1) (h <$> l))%Q.
Proof.
  induction l as [|a l IH]; intros Hgh; csimpl; [reflexivity|].
  rewrite (Hgh a) by apply list_elem_of_here.
  rewrite IH; [reflexivity|]. intros a' Ha'. by apply Hgh, list_elem_of_further.
Qed.

(** Giving one member of a duplicate-free list the value [p0] instead of
    nothing adds [p0] to the sum. *)
Lemma qsum_one_more (g : string → Q) (s0 : string) (p0 : Q) (l : list string) :
  NoDup l → s0 ∈ l → (g s0 == 0)%Q →
  (foldr Qplus (0 # 1) ((λ s, if decide (s0 = s) then p0 else g s) <$> l)
   == p0 + foldr Qplus (0 # 1) (g <$> l))%Q.
Proof.
  intros Hnd Hin Hz. induction l as [|a l IH]; [by apply elem_of_nil in Hin|].
  apply NoDup_cons in Hnd as [Ha Hnd]. csimpl.
  destruct (decide (s0 = a)) as [->|Hne].
  - rewrite Hz.
    rewrite (qsum_ext (λ s, if decide (a = s) then p0 else g s) g l).
    + ring.
    + intros s Hs. destruct (decide (a = s)) as [->|]; [done|reflexivity].
  - apply elem_of_cons in Hin as [->|Hin]; [done|].
    rewrite (IH Hnd Hin). ring.
Qed.

(** When the classes are distinct labels of the catalog, the weights given
    to the catalog add up to the probabilities. *)
Lemma aligned_weights_sum (label_list : list string) (classes : list label)
  (proba : list Q) :
  NoDup label_list → NoDup classes → length proba = length classes →
  (∀ cl, cl ∈ classes → ∃ s, cl = LStr s ∧ s ∈ label_list) →
  (foldr Qplus (0 # 1)
     ((λ l, match list_index (LStr l) classes with
            | Some i => default (0 # 1)%Q (proba !! i)
            | None => (0 # 1)%Q
            end) <$> label_list)
   == foldr Qplus (0 # 1) proba)%Q.
Proof.
  intros HndL. revert proba.
  induction classes as [|c0 classes IH]; intros proba HndC Hlen Hsub.
  - destruct proba; [|done]. by apply qsum_zero.
  - destruct proba as [|p0 proba]; [done|].
    apply NoDup_cons in HndC as [Hc0 HndC].
    destruct (Hsub c0) as (s0 & -> & Hs0); [apply list_elem_of_here|].
    rewrite (qsum_ext _
      (λ s, if decide (s0 = s) then p0
            else match list_index (LStr s) classes with
                 | Some i => default (0 # 1)%Q (proba !! i)
                 | None => (0 # 1)%Q
                 end) label_list).
    + rewrite qsum_one_more; [|done|done|].
      * rewrite IH; [reflexivity|done|by injection Hlen|].
        intros cl Hcl. by apply Hsub, list_elem_of_further.
      * by rewrite (list_index_None _ _ Hc0).
    + intros s _. simpl.
      destruct (decide (LStr s0 = LStr s)) as [[= ->]|Hne].
      * by rewrite decide_True.
      * rewrite decide_False by congruence.
        by destruct (list_index (LStr s) classes).
Qed.

Section RouterWeights.

(** The invocation of [InferRouter] again. *)
Variables (e : env) (w : world) (path text name : string) (b : blob).
Variables (d : gmap string (pyval clf)) (c : clf) (label_list : list string).
Variables (X : list vec) (proba : list Q) (more : list (list Q)).
Hypothesis Hpath : argv e !! 1%nat = Some path.
Hypothesis Htext : argv e !! 2%nat = Some text.
Hypothesis Himport : import_error e = None.
Hypothesis Hfile : files w !! path = Some b.
Hypothesis Hloads : pickle_loads b = inr d.
Hypothesis Hname : dict_get d "embedder_name" (PStr default_model) = PStr name.
Hypothesis Hclf : d !! "classifier" = Some (PClf c).
Hypothesis Hlabels : d !! "label_list" = Some (PStrList label_list).
Hypothesis Hembed : embed name [text] = inr X.
Hypothesis Hpredict : predict_proba c X = inr (proba :: more).

(** X13.  When the classifier's classes are distinct labels of a
    duplicate-free catalog, the printed head weights add up to what the
    classifier's probabilities add up to: no probability is lost or
    counted twice by the alignment. *)
Theorem router_weights_sum :
  length proba = length (classes_ c) →
  NoDup label_list →
  NoDup (classes_ c) →
  (∀ cl, cl ∈ classes_ c → ∃ s, cl = LStr s ∧ s ∈ label_list) →
  ∃ hw : list (string * Q),
    run (infer_label_router_main e) w =
      (Exit 0,
       World (files w) (stdout w ++ [router_report hw label_list]) (stderr w)) ∧
    (foldr Qplus (0 # 1) hw.*2 == foldr Qplus (0 # 1) proba)%Q.
Proof using Hpath Htext Himport Hfile Hloads Hname Hclf Hlabels Hembed Hpredict.
  intros Hlen HndL HndC Hsub.
  pose proof (align_foldl (classes_ c) proba label_list [] w ltac:(lia)) as Halign.
  eexists. split.
  - apply (infer_label_router_run e w path text name b d c label_list X proba more
             Hpath Htext Himport Hfile Hloads Hname Hclf Hlabels Hembed Hpredict
             _ Halign).
  - rewrite foldl_setitem_fresh; [|done|intros l _; apply not_elem_of_nil].
    rewrite app_nil_l, <-list_fmap_compose.
    by apply aligned_weights_sum.
Qed.

End RouterWeights.

(** ** The report of [infer_important.py] is consistent in one direction *)

Lemma round_half_even_ge (n k : Z) (d : positive) :
  (k * Z.pos d ≤ n)%Z → (k ≤ round_half_even n d)%Z.
Proof.
  intros Hk. unfold round_half_even.
  assert (k ≤ n / Z.pos d)%Z as Hfl by (apply Z.div_le_lower_bound; lia).
  destruct (2 * (n mod Z.pos d) ?= Z.pos d)%Z;
    [destruct (Z.even (n / Z.pos d))| |]; lia.
Qed.

Lemma round_half_even_le (n k : Z) (d : positive) :
  (n ≤ k * Z.pos d)%Z → (round_half_even n d ≤ k)%Z.
Proof.
  intros Hk. unfold round_half_even.
  pose proof (Z.div_mod n (Z.pos d) ltac:(lia)) as Hdm.
  pose proof (Z.mod_pos_bound n (Z.pos d) ltac:(lia)) as Hr.
  destruct (Z.compare_spec (2 * (n mod Z.pos d)) (Z.pos d)) as [Heq|Hlt|Hgt];
    [destruct (Z.even (n / Z.pos d))| |]; nia.
Qed.

(** X14.  In the printed report, [important: true] always comes with a
    printed probability of at least 0.5 (only the converse can fail), and
    a probability between 0 and 1 is printed as a number between 0 and
    1. *)
Theorem importance_report_consistent (p r : Q) (flag : bool) :
  importance_report p =
    JObj [("important", JBool flag); ("probability", JFloat r)] →
  (flag = true → (1 # 2 <= r)%Q) ∧
  ((0 <= p)%Q → (p <= 1)%Q → (0 <= r)%Q ∧ (r <= 1)%Q).
Proof.
  unfold importance_report. intros [= <- <-]. split.
  - intros Hflag%ge_half_spec. rewrite round4_multiple.
    destruct p as [n d]. unfold Qle in *. simpl in *.
    pose proof (round_half_even_ge (n * 10000) 5000 d ltac:(lia)). lia.
  - intros H0 H1. rewrite !round4_multiple.
    destruct p as [n d]. unfold Qle in *. simpl in *.
    pose proof (round_half_even_ge (n * 10000) 0 d ltac:(lia)).
    pose proof (round_half_even_le (n * 10000) 10000 d ltac:(lia)). lia.
Qed.

(** ** The members of the label catalog *)

Lemma or_str_other (t : option string) (x : string) :
  or_str t "other" = x ↔
  (t = Some x ∧ x ≠ "") ∨ (x = "other" ∧ (t = None ∨ t = Some "")).
Proof.
  unfold or_str. destruct t as [s|].
  - destruct (decide (s = "")) as [->|Hne].
    + split; [intros <-; right; auto|].
      intros [[[= <-] ?]|[-> _]]; done.
    + split; [intros <-; left; auto|].
      intros [[[= <-] ?]|[-> [?|[= ?]]]]; done.
  - split; [intros <-; right; auto|]. intros [[? ?]|[-> _]]; done.
Qed.

(** X15.  The catalog holds exactly the non-empty target labels of the
    samples, and [other] as soon as one sample has no target label or an
    empty one; it never holds the empty string. *)
Theorem label_catalog_members (data : list row) (x : string) :
  (x ∈ label_catalog data ↔
     (∃ r, r ∈ data ∧ target_label r = Some x ∧ x ≠ "") ∨
     (x = "other" ∧
      ∃ r, r ∈ data ∧ (target_label r = None ∨ target_label r = Some ""))) ∧
  "" ∉ label_catalog data.
Proof.
  assert (∀ y, y ∈ label_catalog data ↔
            ∃ r, r ∈ data ∧ or_str (target_label r) "other" = y) as Hmem.
  { intros y. rewrite elem_of_label_catalog. unfold router_targets.
    rewrite list_elem_of_fmap. split; intros (r & H1 & H2); exists r; done. }
  split.
  - rewrite Hmem. split.
    + intros (r & Hr & [[Ht Hx]|[-> Ht]]%or_str_other); [left|right]; eauto.
    + intros [(r & Hr & Ht & Hx)|[-> (r & Hr & Ht)]]; exists r; split; try done;
        apply or_str_other; auto.
  - rewrite Hmem. intros (r & _ & [[_ Hx]|[[=] _]]%or_str_other). done.
Qed.

End Pipelines.

(** * The scripts on concrete inputs

    The collaborators are those of [Demo]; every run starts with an empty
    disk and empty output streams unless an artifact is needed. *)


(** The same samples: the first label exists and no exception is raised. *)
Lemma train_important_first_label_in_bounds_witness :
  importance_labels
    [Row (Some "pay the invoice") (Some true) None;
     Row (Some "server is down") (Some true) None] !! 0%nat = Some true ∧
  (run (train_important_main Demo.embed Demo.fit Demo.pickle_dumps
          (Env ["train_important.py"; "data.json"]
             {["data.json" := [Row (Some "pay the invoice") (Some true) None;
                               Row (Some "server is down") (Some true) None]]}
             ∅ None))
       (World ∅ [] [])).1 ≠ Raise IndexError.
Proof.
  destruct (train_important_first_label_in_bounds Demo.embed Demo.fit Demo.pickle_dumps
    (Env ["train_important.py"; "data.json"]
       {["data.json" := [Row (Some "pay the invoice") (Some true) None;
                         Row (Some "server is down") (Some true) None]]}
       ∅ None)
    (World ∅ [] []) "data.json"
    [Row (Some "pay the invoice") (Some true) None;
     Row (Some "server is down") (Some true) None])
    as (_ & _ & Hsafe).
  - reflexivity.
  - reflexivity.
  - split; [reflexivity|]. apply Hsafe; [discriminate|]. vm_compute. lia.
Defined.

(** Two samples that share the target label [x]. *)
Lemma train_label_router_degenerate_skipped_witness :
  run (train_label_router_main Demo.embed Demo.fit Demo.pickle_dumps
         (Env ["train_label_router.py"; "data.json"]
            {["data.json" := [Row (Some "reset my password") None (Some "x");
                              Row (Some "cannot log in") None (Some "x")]]}
            ∅ None))
      (World ∅ [] []) =
    (Exit 0,
     World ∅
       [JObj [("samples", JInt 2);
              ("labels", JInt 1);
              ("skipped", JBool true);
              ("reason", JStr "Need at least 2 distinct labels to train, got 1")]]
       []).
Proof.
  apply (train_label_router_degenerate_skipped Demo.embed Demo.fit Demo.pickle_dumps
    (Env ["train_label_router.py"; "data.json"]
       {["data.json" := [Row (Some "reset my password") None (Some "x");
                         Row (Some "cannot log in") None (Some "x")]]}
       ∅ None)
    (World ∅ [] []) "data.json"
    [Row (Some "reset my password") None (Some "x");
     Row (Some "cannot log in") None (Some "x")]).
  - reflexivity.
  - reflexivity.
  - discriminate.
  - reflexivity.
  - vm_compute. lia.
Defined.

(** Target labels billing, auth, ui in two different sample orders. *)
Lemma label_catalog_order_independent_witness :
  label_catalog [Row (Some "t1") None (Some "billing");
                 Row (Some "t2") None (Some "auth");
                 Row (Some "t3") None (Some "ui")] = ["auth"; "billing"; "ui"] ∧
  label_catalog [Row (Some "t3") None (Some "ui");
                 Row (Some "t1") None (Some "billing");
                 Row (Some "t2") None (Some "auth")] = ["auth"; "billing"; "ui"].
Proof.
  destruct (label_catalog_order_independent
    [Row (Some "t1") None (Some "billing");
     Row (Some "t2") None (Some "auth");
     Row (Some "t3") None (Some "ui")]
    [Row (Some "t3") None (Some "ui");
     Row (Some "t1") None (Some "billing");
     Row (Some "t2") None (Some "auth")]) as (Heq & _).
  - symmetry. apply (Permutation_cons_append
      [Row (Some "t1") None (Some "billing"); Row (Some "t2") None (Some "auth")]).
  - rewrite <-Heq. split; reflexivity.
Defined.


(** A router artifact is written and read back. *)
Lemma artifact_round_trip_witness :
  (pickle_dump Demo.pickle_dumps "router.pkl"
     (router_artifact "all-MiniLM-L6-v2"
        (Demo.Table [LStr "auth"; LStr "ui"] [(1 # 2)%Q; (1 # 2)%Q])
        ["auth"; "ui"]) ;;
   load_router_artifact Demo.pickle_loads "router.pkl") (World ∅ [] []) =
    (inr (PStr "all-MiniLM-L6-v2",
          PClf (Demo.Table [LStr "auth"; LStr "ui"] [(1 # 2)%Q; (1 # 2)%Q]),
          PStrList ["auth"; "ui"]),
     World
       (<["router.pkl" := Demo.pickle_dumps
            (router_artifact "all-MiniLM-L6-v2"
               (Demo.Table [LStr "auth"; LStr "ui"] [(1 # 2)%Q; (1 # 2)%Q])
               ["auth"; "ui"])]> ∅)
       [] []).
Proof.
  apply (artifact_round_trip Demo.pickle_dumps Demo.pickle_loads
    "router.pkl" "all-MiniLM-L6-v2"
    (Demo.Table [LStr "auth"; LStr "ui"] [(1 # 2)%Q; (1 # 2)%Q])
    ["auth"; "ui"] (World ∅ [] [])).
  intros d. unfold Demo.pickle_loads, Demo.pickle_dumps.
  f_equal. apply list_to_map_to_list.
Defined.

(** An artifact without a classifier is rejected. *)
Lemma inference_artifact_missing_field_witness :
  run (infer_important_main Demo.embed Demo.predict_proba Demo.pickle_loads
         (Env ["infer_important.py"; "model.pkl"; "please review today"] ∅ ∅ None))
      (World {["model.pkl" := [("embedder_name", PStr "all-MiniLM-L6-v2")]]} [] []) =
    (Raise (KeyError "classifier"),
     World {["model.pkl" := [("embedder_name", PStr "all-MiniLM-L6-v2")]]} [] []).
Proof.
  destruct (inference_artifact_missing_field
    Demo.embed Demo.predict_proba Demo.classes_ Demo.pickle_loads
    (Env ["infer_important.py"; "model.pkl"; "please review today"] ∅ ∅ None)
    (World {["model.pkl" := [("embedder_name", PStr "all-MiniLM-L6-v2")]]} [] [])
    "model.pkl" "please review today"
    [("embedder_name", PStr "all-MiniLM-L6-v2")]
    (list_to_map [("embedder_name", PStr "all-MiniLM-L6-v2")]))
    as (Hno_clf & _).
  - reflexivity.
  - reflexivity.
  - reflexivity.
  - reflexivity.
  - reflexivity.
  - apply Hno_clf. reflexivity.
Defined.

(** C7 as stated fails: an artifact that lacks the embedder's name is
    loaded, the default model name standing in for the missing field, and
    inference goes on to print its report. *)
Lemma incomplete_artifact_accepted :
  (list_to_map [("classifier",
                 PClf (Demo.Table [LBool false; LBool true] [(3 # 10)%Q; (7 # 10)%Q]))]
     : gmap string (pyval Demo.table)) !! "embedder_name" = None ∧
  load_importance_artifact Demo.pickle_loads "model.pkl"
    (World {["model.pkl" :=
               [("classifier",
                 PClf (Demo.Table [LBool false; LBool true] [(3 # 10)%Q; (7 # 10)%Q]))]]}
       [] []) =
    (inr (PStr "all-MiniLM-L6-v2",
          PClf (Demo.Table [LBool false; LBool true] [(3 # 10)%Q; (7 # 10)%Q])),
     World {["model.pkl" :=
               [("classifier",
                 PClf (Demo.Table [LBool false; LBool true] [(3 # 10)%Q; (7 # 10)%Q]))]]}
       [] []) ∧
  run (infer_important_main Demo.embed Demo.predict_proba Demo.pickle_loads
         (Env ["infer_important.py"; "model.pkl"; "please review today"] ∅ ∅ None))
      (World {["model.pkl" :=
                 [("classifier",
                   PClf (Demo.Table [LBool false; LBool true] [(3 # 10)%Q; (7 # 10)%Q]))]]}
         [] []) =
    (Exit 0,
     World {["model.pkl" :=
               [("classifier",
                 PClf (Demo.Table [LBool false; LBool true] [(3 # 10)%Q; (7 # 10)%Q]))]]}
       [JObj [("important", JBool true); ("probability", JFloat (7 # 10))]]
       []).
Proof. split; [reflexivity|]. split; reflexivity. Qed.

(** Probabilities [0.3, 0.7]: important, with probability 0.7. *)
Lemma infer_important_postcondition_witness :
  run (infer_important_main Demo.embed Demo.predict_proba Demo.pickle_loads
         (Env ["infer_important.py"; "model.pkl"; "please review today"] ∅ ∅ None))
      (World {["model.pkl" :=
                 [("classifier",
                   PClf (Demo.Table [LBool false; LBool true] [(3 # 10)%Q; (7 # 10)%Q]));
                  ("embedder_name", PStr "all-MiniLM-L6-v2")]]}
         [] []) =
    (Exit 0,
     World {["model.pkl" :=
               [("classifier",
                 PClf (Demo.Table [LBool false; LBool true] [(3 # 10)%Q; (7 # 10)%Q]));
                ("embedder_name", PStr "all-MiniLM-L6-v2")]]}
       [JObj [("important", JBool true); ("probability", JFloat (7 # 10))]]
       []).
Proof.
  destruct (infer_important_postcondition
    Demo.embed Demo.predict_proba Demo.pickle_loads
    (Env ["infer_important.py"; "model.pkl"; "please review today"] ∅ ∅ None)
    (World {["model.pkl" :=
               [("classifier",
                 PClf (Demo.Table [LBool false; LBool true] [(3 # 10)%Q; (7 # 10)%Q]));
                ("embedder_name", PStr "all-MiniLM-L6-v2")]]}
       [] [])
    "model.pkl" "please review today" "all-MiniLM-L6-v2"
    [("classifier",
      PClf (Demo.Table [LBool false; LBool true] [(3 # 10)%Q; (7 # 10)%Q]));
     ("embedder_name", PStr "all-MiniLM-L6-v2")]
    (list_to_map
       [("classifier",
         PClf (Demo.Table [LBool false; LBool true] [(3 # 10)%Q; (7 # 10)%Q]));
        ("embedder_name", PStr "all-MiniLM-L6-v2")])
    (Demo.Table [LBool false; LBool true] [(3 # 10)%Q; (7 # 10)%Q])
    [19%nat] [(3 # 10)%Q; (7 # 10)%Q] [])
    as (p & Hmany & _ & Hrun & _).
  - reflexivity.
  - reflexivity.
  - reflexivity.
  - reflexivity.
  - reflexivity.
  - reflexivity.
  - reflexivity.
  - reflexivity.
  - reflexivity.
  - discriminate.
  - rewrite Hrun. assert (Some (7 # 10)%Q = Some p) as [= <-].
    { apply Hmany. simpl. lia. }
    reflexivity.
Defined.

(** Probabilities [0.50003, 0.49997]: reported as not important with
    probability 0.5. *)
Lemma infer_important_threshold_before_rounding_witness :
  run (infer_important_main Demo.embed Demo.predict_proba Demo.pickle_loads
         (Env ["infer_important.py"; "model.pkl"; "please review today"] ∅ ∅ None))
      (World {["model.pkl" :=
                 [("classifier",
                   PClf (Demo.Table [LBool false; LBool true]
                           [(50003 # 100000)%Q; (49997 # 100000)%Q]))]]}
         [] []) =
    (Exit 0,
     World {["model.pkl" :=
               [("classifier",
                 PClf (Demo.Table [LBool false; LBool true]
                         [(50003 # 100000)%Q; (49997 # 100000)%Q]))]]}
       [JObj [("important", JBool false); ("probability", JFloat (1 # 2))]]
       []).
Proof.
  apply (infer_important_threshold_before_rounding
    Demo.embed Demo.predict_proba Demo.pickle_loads
    (Env ["infer_important.py"; "model.pkl"; "please review today"] ∅ ∅ None)
    (World {["model.pkl" :=
               [("classifier",
                 PClf (Demo.Table [LBool false; LBool true]
                         [(50003 # 100000)%Q; (49997 # 100000)%Q]))]]}
       [] [])
    "model.pkl" "please review today" "all-MiniLM-L6-v2"
    [("classifier",
      PClf (Demo.Table [LBool false; LBool true]
              [(50003 # 100000)%Q; (49997 # 100000)%Q]))]
    (list_to_map
       [("classifier",
         PClf (Demo.Table [LBool false; LBool true]
                 [(50003 # 100000)%Q; (49997 # 100000)%Q]))])
    (Demo.Table [LBool false; LBool true] [(50003 # 100000)%Q; (49997 # 100000)%Q])
    [19%nat] [(50003 # 100000)%Q; (49997 # 100000)%Q] []
    ltac:(reflexivity) ltac:(reflexivity) ltac:(reflexivity) ltac:(reflexivity)
    ltac:(reflexivity) ltac:(reflexivity) ltac:(reflexivity) ltac:(reflexivity)
    ltac:(reflexivity)
    (50003 # 100000)%Q (49997 # 100000)%Q []).
  - reflexivity.
  - unfold Qle. simpl. lia.
  - unfold Qlt. simpl. lia.
Defined.

(** The catalog [a, b, c] against a classifier that knows only [a] and [c],
    with probabilities [0.9, 0.1]. *)
Lemma router_alignment_complete_witness :
  ∃ hw : list (string * Q),
    run (infer_label_router_main Demo.embed Demo.predict_proba Demo.classes_
           Demo.pickle_loads
           (Env ["infer_label_router.py"; "router.pkl"; "cannot log in"] ∅ ∅ None))
        (World {["router.pkl" :=
                   [("classifier",
                     PClf (Demo.Table [LStr "a"; LStr "c"] [(9 # 10)%Q; (1 # 10)%Q]));
                    ("label_list", PStrList ["a"; "b"; "c"])]]}
           [] []) =
      (Exit 0,
       World {["router.pkl" :=
                 [("classifier",
                   PClf (Demo.Table [LStr "a"; LStr "c"] [(9 # 10)%Q; (1 # 10)%Q]));
                  ("label_list", PStrList ["a"; "b"; "c"])]]}
         [JObj [("head_weights", JObj ((λ kv, (kv.1, JFloat kv.2)) <$> hw));
                ("label_list", JArr [JStr "a"; JStr "b"; JStr "c"])]]
         []) ∧
    hw.*1 = ["a"; "b"; "c"] ∧
    ("a", (9 # 10)%Q) ∈ hw ∧ ("b", (0 # 1)%Q) ∈ hw ∧ ("c", (1 # 10)%Q) ∈ hw.
Proof.
  destruct (router_alignment_complete
    Demo.embed Demo.predict_proba Demo.classes_ Demo.pickle_loads
    (Env ["infer_label_router.py"; "router.pkl"; "cannot log in"] ∅ ∅ None)
    (World {["router.pkl" :=
               [("classifier",
                 PClf (Demo.Table [LStr "a"; LStr "c"] [(9 # 10)%Q; (1 # 10)%Q]));
                ("label_list", PStrList ["a"; "b"; "c"])]]}
       [] [])
    "router.pkl" "cannot log in" "all-MiniLM-L6-v2"
    [("classifier",
      PClf (Demo.Table [LStr "a"; LStr "c"] [(9 # 10)%Q; (1 # 10)%Q]));
     ("label_list", PStrList ["a"; "b"; "c"])]
    (list_to_map
       [("classifier",
         PClf (Demo.Table [LStr "a"; LStr "c"] [(9 # 10)%Q; (1 # 10)%Q]));
        ("label_list", PStrList ["a"; "b"; "c"])])
    (Demo.Table [LStr "a"; LStr "c"] [(9 # 10)%Q; (1 # 10)%Q])
    ["a"; "b"; "c"] [13%nat] [(9 # 10)%Q; (1 # 10)%Q] []
    ltac:(reflexivity) ltac:(reflexivity) ltac:(reflexivity) ltac:(reflexivity)
    ltac:(reflexivity) ltac:(reflexivity) ltac:(reflexivity) ltac:(reflexivity)
    ltac:(reflexivity) ltac:(reflexivity) ltac:(reflexivity))
    as (hw & Hrun & _ & _ & Horder & Hknown & Hunknown).
  exists hw. split; [exact Hrun|]. split.
  { apply Horder. compute_done. }
  split; [|split].
  - destruct (Hknown "a" 0%nat) as (q & [= <-] & Hin); [|reflexivity|exact Hin].
    compute_done.
  - apply Hunknown; compute_done.
  - destruct (Hknown "c" 1%nat) as (q & [= <-] & Hin); [|reflexivity|exact Hin].
    compute_done.
Defined.

(** The spec's examples, evaluated. *)

Example binary_threshold_example :
  importance_report (7 # 10) =
    JObj [("important", JBool true); ("probability", JFloat (7 # 10))] ∧
  importance_report (4 # 10) =
    JObj [("important", JBool false); ("probability", JFloat (2 # 5))] ∧
  round4 (1 # 32) = (39 # 1250)%Q.
Proof. repeat split. Qed.

Example router_alignment_example :
  run (infer_label_router_main Demo.embed Demo.predict_proba Demo.classes_
         Demo.pickle_loads
         (Env ["infer_label_router.py"; "router.pkl"; "cannot log in"] ∅ ∅ None))
      (World {["router.pkl" :=
                 [("classifier",
                   PClf (Demo.Table [LStr "a"; LStr "c"] [(9 # 10)%Q; (1 # 10)%Q]));
                  ("label_list", PStrList ["a"; "b"; "c"])]]}
         [] []) =
    (Exit 0,
     World {["router.pkl" :=
               [("classifier",
                 PClf (Demo.Table [LStr "a"; LStr "c"] [(9 # 10)%Q; (1 # 10)%Q]));
                ("label_list", PStrList ["a"; "b"; "c"])]]}
       [JObj [("head_weights",
               JObj [("a", JFloat (9 # 10)); ("b", JFloat (0 # 1));
                     ("c", JFloat (1 # 10))]);
              ("label_list", JArr [JStr "a"; JStr "b"; JStr "c"])]]
       []).
Proof. reflexivity. Qed.

(** ** Further runs on concrete inputs *)

(** Training, then inference on [model.pkl]. *)
Lemma train_then_infer_important_witness :
  run (infer_important_main Demo.embed Demo.predict_proba Demo.pickle_loads
         Sample.infer_env)
      (run (train_important_main Demo.embed Demo.fit Demo.pickle_dumps
              Sample.train_env) (World ∅ [] [])).2 =
    (Exit 0,
     World
       (<["model.pkl" := Demo.pickle_dumps
            (importance_artifact "all-MiniLM-L6-v2" Sample.importance_table)]> ∅)
       [JObj [("samples", JInt 3); ("path", JStr "model.pkl")];
        JObj [("important", JBool true); ("probability", JFloat (1 # 2))]]
       []).
Proof.
  destruct (train_then_infer_important
    Demo.embed Demo.fit Demo.predict_proba Demo.pickle_dumps Demo.pickle_loads
    (λ d, f_equal inr (list_to_map_to_list d))
    Sample.train_env Sample.infer_env (World ∅ [] []) "data.json"
    "please review today" Sample.mixed_samples [15; 14; 17]%nat
    Sample.importance_table [19%nat] [(1 # 2)%Q; (1 # 2)%Q] []
    ltac:(reflexivity) ltac:(reflexivity) ltac:(reflexivity) ltac:(reflexivity)
    ltac:(reflexivity) ltac:(reflexivity) ltac:(reflexivity) ltac:(reflexivity))
    as (p & Hmany & _ & Hrun).
  - compute_done.
  - compute_done.
  - reflexivity.
  - reflexivity.
  - discriminate.
  - rewrite Hrun. assert (Some (1 # 2)%Q = Some p) as [= <-].
    { apply Hmany. simpl. lia. }
    reflexivity.
Defined.

(** Router training, then router inference on [model.pkl]. *)
Lemma train_then_infer_router_witness :
  ∃ hw : list (string * Q),
    hw.*1 = ["billing"; "chat"; "other"] ∧
    (run (infer_label_router_main Demo.embed Demo.predict_proba Demo.classes_
            Demo.pickle_loads Sample.infer_env)
         (run (train_label_router_main Demo.embed Demo.fit Demo.pickle_dumps
                 Sample.train_env) (World ∅ [] [])).2).1 = Exit 0.
Proof.
  destruct (train_then_infer_router
    Demo.embed Demo.fit Demo.predict_proba Demo.classes_
    Demo.pickle_dumps Demo.pickle_loads
    (λ d, f_equal inr (list_to_map_to_list d))
    Sample.train_env Sample.infer_env (World ∅ [] []) "data.json"
    "please review today" Sample.mixed_samples [15; 14; 17]%nat
    Sample.router_table [19%nat] [(1 # 3)%Q; (1 # 3)%Q; (1 # 3)%Q] []
    ltac:(reflexivity) ltac:(reflexivity) ltac:(reflexivity) ltac:(reflexivity)
    ltac:(reflexivity) ltac:(reflexivity) ltac:(reflexivity) ltac:(reflexivity)
    "billing" "chat")
    as (hw & Hkeys & Hrun).
  - compute_done.
  - compute_done.
  - discriminate.
  - reflexivity.
  - reflexivity.
  - reflexivity.
  - exists hw. split; [exact Hkeys|]. by rewrite Hrun.
Defined.

(** Training on an empty file while a dependency is missing. *)
Lemma training_checks_order_witness :
  run (train_label_router_main Demo.embed Demo.fit Demo.pickle_dumps
         (Env ["train_label_router.py"; "data.json"] {["data.json" := []]} ∅
            (Some "No module named 'sklearn'")))
      (World ∅ [] []) =
    (Exit 1, World ∅ [] ["No samples"]).
Proof.
  destruct (training_checks_order Demo.embed Demo.fit Demo.pickle_dumps
    (Env ["train_label_router.py"; "data.json"] {["data.json" := []]} ∅
       (Some "No module named 'sklearn'"))
    (World ∅ [] []) "data.json" "" []) as (_ & Hrest).
  destruct Hrest as (_ & Hempty & _); [reflexivity|].
  apply Hempty. reflexivity.
Defined.

(** The catalog [a, b, c] against the classes [a, c]: the weights add up
    to 1. *)
Lemma router_weights_sum_witness :
  ∃ hw : list (string * Q),
    run (infer_label_router_main Demo.embed Demo.predict_proba Demo.classes_
           Demo.pickle_loads Sample.infer_env)
        (World {["model.pkl" :=
                   [("classifier",
                     PClf (Demo.Table [LStr "a"; LStr "c"] [(9 # 10)%Q; (1 # 10)%Q]));
                    ("label_list", PStrList ["a"; "b"; "c"])]]}
           [] []) =
      (Exit 0,
       World {["model.pkl" :=
                 [("classifier",
                   PClf (Demo.Table [LStr "a"; LStr "c"] [(9 # 10)%Q; (1 # 10)%Q]));
                  ("label_list", PStrList ["a"; "b"; "c"])]]}
         [router_report hw ["a"; "b"; "c"]] []) ∧
    (foldr Qplus (0 # 1) hw.*2 == 1)%Q.
Proof.
  destruct (router_weights_sum
    Demo.embed Demo.predict_proba Demo.classes_ Demo.pickle_loads
    Sample.infer_env
    (World {["model.pkl" :=
               [("classifier",
                 PClf (Demo.Table [LStr "a"; LStr "c"] [(9 # 10)%Q; (1 # 10)%Q]));
                ("label_list", PStrList ["a"; "b"; "c"])]]}
       [] [])
    "model.pkl" "please review today" "all-MiniLM-L6-v2"
    [("classifier",
      PClf (Demo.Table [LStr "a"; LStr "c"] [(9 # 10)%Q; (1 # 10)%Q]));
     ("label_list", PStrList ["a"; "b"; "c"])]
    (list_to_map
       [("classifier",
         PClf (Demo.Table [LStr "a"; LStr "c"] [(9 # 10)%Q; (1 # 10)%Q]));
        ("label_list", PStrList ["a"; "b"; "c"])])
    (Demo.Table [LStr "a"; LStr "c"] [(9 # 10)%Q; (1 # 10)%Q])
    ["a"; "b"; "c"] [19%nat] [(9 # 10)%Q; (1 # 10)%Q] []
    ltac:(reflexivity) ltac:(reflexivity) ltac:(reflexivity) ltac:(reflexivity)
    ltac:(reflexivity) ltac:(reflexivity) ltac:(reflexivity) ltac:(reflexivity)
    ltac:(reflexivity) ltac:(reflexivity))
    as (hw & Hrun & Hsum).
  - reflexivity.
  - compute_done.
  - compute_done.
  - intros cl Hcl. apply elem_of_cons in Hcl as [->|Hcl].
    { exists "a". split; [done|compute_done]. }
    apply list_elem_of_singleton in Hcl as ->.
    exists "c". split; [done|compute_done].
  - exists hw. split; [exact Hrun|]. rewrite Hsum. reflexivity.
Defined.

(** A probability of 0.7 is printed as important with probability 0.7. *)
Lemma importance_report_consistent_witness :
  (1 # 2 <= 7 # 10)%Q ∧ (0 <= 7 # 10)%Q ∧ (7 # 10 <= 1)%Q.
Proof.
  destruct (importance_report_consistent (7 # 10) (7 # 10) true)
    as [Hflag Hrange].
  - reflexivity.
  - split; [by apply Hflag|]. apply Hrange; unfold Qle; simpl; lia.
Defined.


(** Training on the mixed samples with a fit that fails. *)
Lemma train_important_failure_uncaught_witness :
  (run (train_important_main Demo.embed Sample.failing_fit Demo.pickle_dumps
          Sample.train_env) (World ∅ [] [])).1 = Raise (ExternalError "fit") ∧
  files (run (train_important_main Demo.embed Sample.failing_fit Demo.pickle_dumps
                Sample.train_env) (World ∅ [] [])).2 !! "model.pkl" = None ∧
  stdout (run (train_important_main Demo.embed Sample.failing_fit Demo.pickle_dumps
                 Sample.train_env) (World ∅ [] [])).2 = [].
Proof.
  assert (true ∈ importance_labels Sample.mixed_samples) as Htrue by compute_done.
  assert (false ∈ importance_labels Sample.mixed_samples) as Hfalse by compute_done.
  exact (train_important_failure_uncaught Demo.embed Sample.failing_fit
    Demo.pickle_dumps Sample.train_env (World ∅ [] []) "data.json"
    Sample.mixed_samples eq_refl eq_refl eq_refl Htrue Hfalse
    (ExternalError "fit")
    (or_intror (ex_intro _ [15; 14; 17]%nat (conj eq_refl eq_refl)))).
Defined.

(** A classifier with two classes and a single probability. *)
Lemma infer_label_router_short_proba_raises_witness :
  (run (infer_label_router_main Demo.embed Demo.predict_proba Demo.classes_
          Demo.pickle_loads Sample.infer_env)
       (World {["model.pkl" :=
                  [("classifier",
                    PClf (Demo.Table [LStr "a"; LStr "c"] [(9 # 10)%Q]));
                   ("label_list", PStrList ["a"; "b"; "c"])]]}
          [] [])).1 = Raise IndexError ∧
  stdout (run (infer_label_router_main Demo.embed Demo.predict_proba Demo.classes_
                 Demo.pickle_loads Sample.infer_env)
            (World {["model.pkl" :=
                       [("classifier",
                         PClf (Demo.Table [LStr "a"; LStr "c"] [(9 # 10)%Q]));
                        ("label_list", PStrList ["a"; "b"; "c"])]]}
               [] [])).2 = [].
Proof.
  apply (infer_label_router_short_proba_raises
    Demo.embed Demo.predict_proba Demo.classes_ Demo.pickle_loads
    Sample.infer_env
    (World {["model.pkl" :=
               [("classifier",
                 PClf (Demo.Table [LStr "a"; LStr "c"] [(9 # 10)%Q]));
                ("label_list", PStrList ["a"; "b"; "c"])]]}
       [] [])
    "model.pkl" "please review today" "all-MiniLM-L6-v2"
    [("classifier", PClf (Demo.Table [LStr "a"; LStr "c"] [(9 # 10)%Q]));
     ("label_list", PStrList ["a"; "b"; "c"])]
    (list_to_map
       [("classifier", PClf (Demo.Table [LStr "a"; LStr "c"] [(9 # 10)%Q]));
        ("label_list", PStrList ["a"; "b"; "c"])])
    (Demo.Table [LStr "a"; LStr "c"] [(9 # 10)%Q]) [19%nat]
    ltac:(reflexivity) ltac:(reflexivity) ltac:(reflexivity) ltac:(reflexivity)
    ltac:(reflexivity) ltac:(reflexivity) ltac:(reflexivity) ltac:(reflexivity)
    ["a"; "b"; "c"] [(9 # 10)%Q] [] "c" 1%nat).
  - reflexivity.
  - reflexivity.
  - compute_done.
  - reflexivity.
  - simpl. lia.
Defined.

(** A classifier that returns an empty probability vector. *)
Lemma infer_important_bad_prediction_raises_witness :
  (run (infer_important_main Demo.embed Demo.predict_proba Demo.pickle_loads
          Sample.infer_env)
       (World {["model.pkl" := [("classifier", PClf (Demo.Table [] []))]]} [] [])).1
    = Raise IndexError ∧
  stdout (run (infer_important_main Demo.embed Demo.predict_proba Demo.pickle_loads
                 Sample.infer_env)
            (World {["model.pkl" := [("classifier", PClf (Demo.Table [] []))]]}
               [] [])).2 = [].
Proof.
  destruct (infer_important_bad_prediction_raises
    Demo.embed Demo.predict_proba Demo.pickle_loads
    Sample.infer_env
    (World {["model.pkl" := [("classifier", PClf (Demo.Table [] []))]]} [] [])
    "model.pkl" "please review today" "all-MiniLM-L6-v2"
    [("classifier", PClf (Demo.Table [] []))]
    (list_to_map [("classifier", PClf (Demo.Table [] []))])
    (Demo.Table [] []) [19%nat]
    ltac:(reflexivity) ltac:(reflexivity) ltac:(reflexivity) ltac:(reflexivity)
    ltac:(reflexivity) ltac:(reflexivity) ltac:(reflexivity) ltac:(reflexivity))
    as (_ & _ & Hempty).
  apply (Hempty []). reflexivity.
Defined.

(** Inference on a path where there is no file. *)
Lemma inference_checks_in_order_witness :
  (run (infer_important_main Demo.embed Demo.predict_proba Demo.pickle_loads
          Sample.infer_env) (World ∅ [] [])).1
    = Raise (FileNotFoundError "model.pkl") ∧
  (run (infer_label_router_main Demo.embed Demo.predict_proba Demo.classes_
          Demo.pickle_loads Sample.infer_env) (World ∅ [] [])).1
    = Raise (FileNotFoundError "model.pkl").
Proof.
  destruct (inference_checks_in_order
    Demo.embed Demo.predict_proba Demo.classes_ Demo.pickle_loads
    Sample.infer_env (World ∅ [] []) "model.pkl" "please review today" ""
    [] IndexError) as (_ & Hrest).
  destruct Hrest as (_ & Hmissing & _); [reflexivity|reflexivity|].
  apply Hmissing; reflexivity.
Defined.
